(** * nornir-salt: ResultSerializer and TabulateFormatter

    A shallow embedding of the two functions of
    [nornir_salt/plugins/functions]:

    - [ResultSerializer.py]: turns the per-host, per-task results of a
      Nornir run into nested dictionaries or into per-host lists of
      records;
    - [TabulateFormatter.py]: turns such results (or a list of
      dictionaries) into the arguments of [tabulate.tabulate].

    Python dictionaries keep insertion order and the code depends on it
    (column order), so a dictionary is an association list with unique
    keys.  The dictionaries a caller hands to [TabulateFormatter] are
    mutable objects the function updates in place ([pop], [setdefault]);
    they live in a store indexed by locations. *)

From Stdlib Require Import String Ascii List ZArith Bool Lia.
From stdpp Require Import base option list gmap strings.

Local Open Scope string_scope.
Local Open Scope list_scope.

(* ================================================================== *)
(** ** Python values *)
(* ================================================================== *)

(** The plain data the two functions build and inspect.  Keys of
    dictionaries are strings (field names, task names, host names). *)
#[warnings="-register-all"]
Inductive value : Type :=
| VNone
| VBool (b : bool)
| VInt (z : Z)
| VStr (s : string)
| VList (l : list value)
| VDict (d : list (string * value)).

Abbreviation dict := (list (string * value)).

(** [bool(v)] *)
Definition truthy (v : value) : bool :=
  match v with
  | VNone => false
  | VBool b => b
  | VInt z => negb (Z.eqb z 0)
  | VStr s => negb (String.eqb s "")
  | VList l => match l with [] => false | _ :: _ => true end
  | VDict d => match d with [] => false | _ :: _ => true end
  end.

(** [isinstance(v, list)], [isinstance(v, dict)] *)
Definition is_list (v : value) : bool :=
  match v with VList _ => true | _ => false end.
Definition is_dict (v : value) : bool :=
  match v with VDict _ => true | _ => false end.

(* ------------------------------------------------------------------ *)
(** *** Dictionaries *)

(** [k in d] *)
Fixpoint dict_mem (d : dict) (k : string) : bool :=
  match d with
  | [] => false
  | (k', _) :: d' => if String.eqb k k' then true else dict_mem d' k
  end.

(** [d[k]], [None] standing for [KeyError] *)
Fixpoint dict_get (d : dict) (k : string) : option value :=
  match d with
  | [] => None
  | (k', v) :: d' => if String.eqb k k' then Some v else dict_get d' k
  end.

(** [d.get(k, default)] *)
Definition dict_get_default (d : dict) (k : string) (default : value) : value :=
  match dict_get d k with
  | Some v => v
  | None => default
  end.

(** [d[k] = v]: an existing key keeps its position, a new key goes last *)
Fixpoint dict_set (d : dict) (k : string) (v : value) : dict :=
  match d with
  | [] => [(k, v)]
  | (k', v') :: d' =>
      if String.eqb k k' then (k, v) :: d' else (k', v') :: dict_set d' k v
  end.

(** the dictionary left by [d.pop(k)] *)
Fixpoint dict_del (d : dict) (k : string) : dict :=
  match d with
  | [] => []
  | (k', v') :: d' =>
      if String.eqb k k' then dict_del d' k else (k', v') :: dict_del d' k
  end.

(** [{**d, **e}] *)
Definition dict_merge (d e : dict) : dict :=
  fold_left (fun acc kv => dict_set acc (fst kv) (snd kv)) e d.

Definition keys (d : dict) : list string := map fst d.

(* ------------------------------------------------------------------ *)
(** *** Strings *)

(** [str.isspace] on one character (code points below 256) *)
Definition is_space (c : ascii) : bool :=
  let n := nat_of_ascii c in
  (Nat.leb 9 n && Nat.leb n 13) || (Nat.leb 28 n && Nat.leb n 32)
  || Nat.eqb n 133 || Nat.eqb n 160.

Fixpoint lstrip (s : string) : string :=
  match s with
  | String c s' => if is_space c then lstrip s' else s
  | EmptyString => EmptyString
  end.

Fixpoint rstrip (s : string) : string :=
  match s with
  | String c s' =>
      match rstrip s' with
      | EmptyString => if is_space c then EmptyString else String c EmptyString
      | t => String c t
      end
  | EmptyString => EmptyString
  end.

(** [s.strip()] *)
Definition strip (s : string) : string := rstrip (lstrip s).

(** [s.split(sep)] for a one-character separator: never empty *)
Fixpoint split (sep : ascii) (s : string) : list string :=
  match s with
  | EmptyString => [EmptyString]
  | String c s' =>
      if Ascii.eqb c sep then EmptyString :: split sep s'
      else match split sep s' with
           | w :: ws => String c w :: ws
           | [] => [String c EmptyString]
           end
  end.

(** [c in s] for a character *)
Fixpoint has_char (c : ascii) (s : string) : bool :=
  match s with
  | EmptyString => false
  | String c' s' => if Ascii.eqb c c' then true else has_char c s'
  end.

(** [k in s] for strings: [k] occurs in [s] as a substring *)
Fixpoint substring_of (k s : string) : bool :=
  if String.prefix k s then true
  else match s with
       | EmptyString => false
       | String _ s' => substring_of k s'
       end.

(** [k in l] for a list of strings *)
Definition str_in (k : string) (l : list string) : bool :=
  existsb (String.eqb k) l.

Definition comma : ascii := "," % char.

(* ================================================================== *)
(** ** ResultSerializer.py *)
(* ================================================================== *)

(** An exception object, seen through the two things the code does with
    it: test it (an exception object is truthy) and take [str] of it. *)
Record pyexception := PyException { exc_str : string }.

(** [str(e)] for [e : Optional[BaseException]] *)
Definition str_of_exception (e : option pyexception) : string :=
  match e with
  | Some x => exc_str x
  | None => "None"
  end.

(** [nornir.core.task.Result]: the attributes the serializer reads.
    [host] is the data reachable through [i.host.get] and [i.host[..]]. *)
Module Result.
Record t := mk {
  name : string;
  result : value;
  changed : bool;
  failed : bool;
  diff : string;
  exception : option pyexception;
  host : dict
}.
End Result.

(** [nornir.core.task.AggregatedResult], as the sequence [.items()]
    yields: host name and that host's results in order. *)
Abbreviation AggregatedResult := (list (string * list Result.t)).

(** list of known group tasks to skip them *)
Definition skip_tasks : list string := ["netmiko_send_commands"].

(** [i.host.get("exception")] *)
Definition host_exception (i : Result.t) : value :=
  dict_get_default (Result.host i) "exception" VNone.

(** [True if i.exception else i.failed] *)
Definition failed_flag (i : Result.t) : bool :=
  match Result.exception i with
  | Some _ => true
  | None => Result.failed i
  end.

(** The detail record of the [add_details] branch, without [name]. *)
Definition details (i : Result.t) : dict :=
  [("diff", VStr (Result.diff i));
   ("changed", VBool (Result.changed i));
   ("result", Result.result i);
   ("failed", VBool (failed_flag i));
   ("exception", VStr (str_of_exception (Result.exception i)))].

(** Body of the inner loop of the [to_dict] branch: [inner] is
    [ret[hostname]]. *)
Definition dict_task (add_details : bool) (inner : dict) (i : Result.t) : dict :=
  if String.prefix "_" (Result.name i) then inner
  else if str_in (Result.name i) skip_tasks then inner
  else if truthy (host_exception i) then
    dict_set inner (Result.name i) (VDict [("exception", host_exception i)])
  else if add_details then
    dict_set inner (Result.name i) (VDict (details i))
  else
    dict_set inner (Result.name i) (Result.result i).

(** Body of the inner loop of the list branch: [inner] is
    [ret[hostname]]. *)
Definition list_task (add_details : bool) (inner : list value) (i : Result.t)
  : list value :=
  if String.prefix "_" (Result.name i) then inner
  else if str_in (Result.name i) skip_tasks then inner
  else if truthy (host_exception i) then
    inner ++ [VDict [("name", VStr (Result.name i));
                     ("exception", host_exception i)]]
  else if add_details then
    inner ++ [VDict (("name", VStr (Result.name i)) :: details i)]
  else
    inner ++ [VDict [("name", VStr (Result.name i));
                     ("result", Result.result i)]].

(** [ret[hostname]] is created empty, filled by the inner loop and
    referred to from nowhere else, so the outer loop stores the
    container the inner loop ends with. *)
Definition dict_host (add_details : bool) (ret : dict)
    (item : string * list Result.t) : dict :=
  dict_set ret (fst item) (VDict (fold_left (dict_task add_details) (snd item) [])).

Definition list_host (add_details : bool) (ret : dict)
    (item : string * list Result.t) : dict :=
  dict_set ret (fst item) (VList (fold_left (list_task add_details) (snd item) [])).

(** The dictionary [ret] the function returns. *)
Definition ResultSerializer (nr_results : AggregatedResult)
    (add_details to_dict : bool) : dict :=
  if to_dict then fold_left (dict_host add_details) nr_results []
  else fold_left (list_host add_details) nr_results [].

(* ================================================================== *)
(** ** The store of caller-owned dictionaries *)
(* ================================================================== *)

(** The records of the list given as [result] and a dictionary given as
    [tabulate] are objects of the caller.  A location names one such
    object; the same location met twice is the same object.  Reading a
    location the store does not list gives the empty dictionary. *)
Definition loc := nat.
Abbreviation store := (gmap nat (list (string * value))).

Inductive pyerror := KeyError | TypeError | AttributeError.

Inductive exc (A : Type) : Type :=
| Ok (a : A)
| Raise (e : pyerror).
Arguments Ok {A} a.
Arguments Raise {A} e.

(** Computations that read and update the store and may raise; a raise
    keeps the updates made before it. *)
Definition M (A : Type) : Type := store -> store * exc A.

Definition ret {A} (a : A) : M A := fun s => (s, Ok a).
Definition raise {A} (e : pyerror) : M A := fun s => (s, Raise e).
Definition lift {A} (x : exc A) : M A := fun s => (s, x).
Definition bind {A B} (m : M A) (f : A -> M B) : M B :=
  fun s =>
    match m s with
    | (s', Ok a) => f a s'
    | (s', Raise e) => (s', Raise e)
    end.
Definition read (l : loc) : M dict := fun s => (s, Ok (s !!! l)).
Definition write (l : loc) (d : dict) : M unit := fun s => (<[l := d]> s, Ok tt).

Notation "'let!' x ':=' m 'in' k" := (bind m (fun x => k))
  (at level 10, x name, m at level 200, k at level 200, only parsing).

Definition bind_exc {A B} (x : exc A) (f : A -> exc B) : exc B :=
  match x with
  | Ok a => f a
  | Raise e => Raise e
  end.

Fixpoint foldM {A B} (f : A -> B -> M A) (a : A) (l : list B) : M A :=
  match l with
  | [] => ret a
  | x :: l' => let! a' := f a x in foldM f a' l'
  end.

(** [[f(x) for x in l]] for an [f] that may raise *)
Fixpoint map_exc {A B} (f : A -> exc B) (l : list A) : exc (list B) :=
  match l with
  | [] => Ok []
  | x :: l' =>
      bind_exc (f x) (fun y => bind_exc (map_exc f l') (fun ys => Ok (y :: ys)))
  end.

(* ================================================================== *)
(** ** TabulateFormatter.py *)
(* ================================================================== *)

(** The [result] argument: an [AggregatedResult], a list of
    dictionaries (each an object of the caller), or any object that is
    neither an [AggregatedResult] nor a [list]. *)
Inductive result_arg :=
| RAggregated (nr_results : AggregatedResult)
| RList (records : list loc)
| ROther.

(** The [tabulate] argument. [TOther] is any object that is no string,
    number or dictionary. *)
Inductive tabulate_arg :=
| TStr (s : string)
| TBool (b : bool)
| TInt (z : Z)
| TDict (l : loc)
| TOther.

(** [tabulate == s] for a string literal [s] *)
Definition tab_eq_str (t : tabulate_arg) (s : string) : bool :=
  match t with
  | TStr s' => String.eqb s' s
  | _ => false
  end.

(** [tabulate == True] and [tabulate == False]: [1 == True], [0 == False] *)
Definition tab_eq_bool (t : tabulate_arg) (b : bool) : bool :=
  match t with
  | TBool b' => Bool.eqb b' b
  | TInt z => Z.eqb z (if b then 1 else 0)
  | _ => false
  end.

(** An element of a list of dictionaries: an object of the caller, or a
    dictionary the function has built itself. *)
Inductive record :=
| Shared (l : loc)
| Fresh (d : dict).

(** [result_to_tabulate] before the rows are formed: the dictionary the
    serializer returns, or a list of dictionaries. *)
Inductive table :=
| TMapping (m : dict)
| TRecords (rs : list record).

(** What the function returns: its [result] argument, or the call
    [tabulate_lib.tabulate(data, **kwargs)]. *)
Inductive returned :=
| Original
| Tabulate (data : value) (kwargs : dict).

Definition deref (r : record) : M dict :=
  match r with
  | Shared l => read l
  | Fresh d => ret d
  end.

(** [[i.strip() for i in s.split(",")]] *)
Definition split_names (s : string) : value :=
  VList (map (fun i => VStr (strip i)) (split comma s)).

(** Lines 101-104: a string with a comma becomes the list of its
    trimmed pieces, anything else is kept. *)
Definition normalize (h : value) : value :=
  match h with
  | VStr s => if has_char comma s then split_names s else h
  | _ => h
  end.

(** [{**res, **i} if isinstance(i, dict) else {**res, "result": i}] *)
Definition extend_item (res : dict) (i : value) : dict :=
  match i with
  | VDict e => dict_merge res e
  | _ => dict_set res "result" i
  end.

(** Body of the loop of the ["extend"] branch for a dictionary [res].
    [res.pop("result")] is evaluated before the comprehension runs, so
    the rows are built from [res] without its ["result"]. *)
Definition extend_record (table_ : list record) (res : record) : M (list record) :=
  let! d := deref res in
  match dict_get d "result" with
  | None => raise KeyError
  | Some (VList items) =>
      let d' := dict_del d "result" in
      let! _ := match res with
           | Shared l => write l d'
           | Fresh _ => ret tt
           end in
      ret (table_ ++ map (fun i => Fresh (extend_item d' i)) items)
  | Some _ => ret (table_ ++ [res])
  end.

(** The loop of the ["extend"] branch.  Iterating the serializer's
    dictionary yields host names, and [res["result"]] on a string raises
    [TypeError]. *)
Definition extend (rt : table) : M table :=
  match rt with
  | TMapping [] => ret (TRecords [])
  | TMapping (_ :: _) => raise TypeError
  | TRecords rs => let! table_ := foldM extend_record [] rs in ret (TRecords table_)
  end.

(** [k in headers_exclude] for a key [k] of a record *)
Definition contains (headers_exclude : value) (k : string) : exc bool :=
  match headers_exclude with
  | VList l =>
      Ok (existsb (fun e => match e with
                            | VStr s => String.eqb k s
                            | _ => false
                            end) l)
  | VStr s => Ok (substring_of k s)
  | VDict d => Ok (dict_mem d k)
  | VNone | VBool _ | VInt _ => Raise TypeError
  end.

(** [{k: v for k, v in res.items() if k not in headers_exclude}] *)
Fixpoint exclude_record (headers_exclude : value) (res : dict) : exc dict :=
  match res with
  | [] => Ok []
  | (k, v) :: res' =>
      bind_exc (contains headers_exclude k) (fun b =>
      bind_exc (exclude_record headers_exclude res') (fun rest =>
      Ok (if b then rest else (k, v) :: rest)))
  end.

(** Lines 143-146.  A host name has no [items]. *)
Definition exclude (headers_exclude : value) (rt : table) : M table :=
  match rt with
  | TMapping [] => ret (TRecords [])
  | TMapping (_ :: _) => raise AttributeError
  | TRecords rs =>
      let! out := foldM (fun acc res =>
                      let! d := deref res in
                      let! d' := lift (exclude_record headers_exclude d) in
                      ret (acc ++ [Fresh d'])) [] rs in
      ret (TRecords out)
  end.

(** [item.get(i, "")]: a list or a dictionary is not hashable; any other
    header that is not a string is no key of the record. *)
Definition cell (item : dict) (i : value) : exc value :=
  match i with
  | VStr s => Ok (dict_get_default item s (VStr ""))
  | VList _ | VDict _ => Raise TypeError
  | VNone | VBool _ | VInt _ => Ok (VStr "")
  end.

(** Lines 150-153.  A host name has no [get]; with no header at all the
    attribute is never looked up. *)
Definition rows (hs : list value) (rt : table) : M (list value) :=
  match rt with
  | TMapping m =>
      match hs with
      | [] => ret (map (fun _ => VList []) m)
      | _ :: _ =>
          match m with
          | [] => ret []
          | _ :: _ => raise AttributeError
          end
      end
  | TRecords rs =>
      foldM (fun acc item =>
               let! d := deref item in
               let! r := lift (map_exc (cell d) hs) in
               ret (acc ++ [VList r])) [] rs
  end.

(** The first argument of [tabulate_lib.tabulate] when no rows are
    formed. *)
Definition as_data (rt : table) : M value :=
  match rt with
  | TMapping m => ret (VDict m)
  | TRecords rs =>
      let! ds := foldM (fun acc r => let! d := deref r in ret (acc ++ [VDict d])) [] rs in
      ret (VList ds)
  end.

(** Lines 141-155, with [tabulate] the keyword dictionary.  Every branch
    that gets here has set ["headers"]. *)
Definition render (rt : table) (tabulate : dict) (headers_exclude : value)
  : M returned :=
  let! rt := (if truthy headers_exclude then exclude headers_exclude rt else ret rt) in
  match dict_get tabulate "headers" with
  | None => raise KeyError
  | Some (VList hs) =>
      let! rs := rows hs rt in ret (Tabulate (VList rs) tabulate)
  | Some _ =>
      let! data := as_data rt in ret (Tabulate data tabulate)
  end.

(** [tabulate.setdefault("headers", headers)] on the caller's object *)
Definition setdefault_headers (l : loc) (headers : value) : M dict :=
  let! d := read l in
  if dict_mem d "headers" then ret d
  else let! _ := write l (dict_set d "headers" headers) in read l.

Definition brief : dict :=
  [("tablefmt", VStr "grid");
   ("showindex", VBool true);
   ("headers", VList [VStr "host"; VStr "name"; VStr "result"; VStr "exception"])].

(** [HAS_TABULATE] is the module's flag set when [tabulate] imports.
    Writes to the log are not modelled. *)
Definition TabulateFormatter (HAS_TABULATE : bool) (result : result_arg)
    (tabulate : tabulate_arg) (headers headers_exclude : value) : M returned :=
  if negb HAS_TABULATE then ret Original
  else
    match
      match result with
      | RAggregated nr => Some (TMapping (ResultSerializer nr true false))
      | RList records => Some (TRecords (map Shared records))
      | ROther => None
      end
    with
    | None => ret Original
    | Some result_to_tabulate =>
        let headers := normalize headers in
        let headers_exclude := normalize headers_exclude in
        if tab_eq_str tabulate "brief" then
          render result_to_tabulate brief headers_exclude
        else if tab_eq_bool tabulate true then
          render result_to_tabulate [("headers", headers)] headers_exclude
        else if tab_eq_str tabulate "extend" then
          let! table_ := extend result_to_tabulate in
          render table_ [("headers", headers)] headers_exclude
        else
          match tabulate with
          | TDict l =>
              let! kwargs := setdefault_headers l headers in
              render result_to_tabulate kwargs headers_exclude
          | _ =>
              if tab_eq_bool tabulate false then ret Original
              else ret Original
          end
    end.

(** The defaults of the signature. *)
Definition default_tabulate : tabulate_arg := TBool true.
Definition default_headers : value := VStr "keys".
Definition default_headers_exclude : value := VList [].

(* ================================================================== *)
(** ** Notions the statements use *)
(* ================================================================== *)

(** A task the serializer passes over: its name begins with an
    underscore or is one of [skip_tasks]. *)
Definition skipped (n : string) : bool :=
  String.prefix "_" n || str_in n skip_tasks.

(** The task names found in one host's container: the keys of the
    dictionary shape, the ["name"] fields of the list shape. *)
Definition record_name (r : value) : list string :=
  match r with
  | VDict d =>
      match dict_get d "name" with
      | Some (VStr n) => [n]
      | _ => []
      end
  | _ => []
  end.

Definition names_of (container : value) : list string :=
  match container with
  | VDict inner => keys inner
  | VList recs => flat_map record_name recs
  | _ => []
  end.

Definition task_names (out : dict) : list string :=
  flat_map (fun hv => names_of (snd hv)) out.

(** What a record of the list shape holds besides its name: the result,
    or for a record without one the remaining fields. *)
Definition payload (r : dict) : value :=
  match dict_get r "result" with
  | Some x => x
  | None => VDict (dict_del r "name")
  end.

Definition record_triple (h : string) (r : value) : list (string * string * value) :=
  match r with
  | VDict d =>
      match dict_get d "name" with
      | Some (VStr n) => [(h, n, payload d)]
      | _ => []
      end
  | _ => []
  end.

(** The (host, task name, result) triples of one host's container. *)
Definition triples_of (h : string) (container : value)
  : list (string * string * value) :=
  match container with
  | VDict inner => map (fun kv => (h, fst kv, snd kv)) inner
  | VList recs => flat_map (record_triple h) recs
  | _ => []
  end.

(** The triples of an output of [ResultSerializer], in either shape. *)
Definition triples (out : dict) : list (string * string * value) :=
  flat_map (fun hv => triples_of (fst hv) (snd hv)) out.

(** The tasks of a host that are not passed over. *)
Definition kept (ts : list Result.t) : list Result.t :=
  List.filter (fun i => negb (skipped (Result.name i))) ts.

(** The value the dictionary shape stores for a task that is kept: the
    three last branches of the inner loop. *)
Definition leaf (add_details : bool) (i : Result.t) : value :=
  if truthy (host_exception i) then VDict [("exception", host_exception i)]
  else if add_details then VDict (details i)
  else Result.result i.

(** The record the list shape appends for a task that is kept. *)
Definition flat_record (add_details : bool) (i : Result.t) : value :=
  if truthy (host_exception i) then
    VDict [("name", VStr (Result.name i)); ("exception", host_exception i)]
  else if add_details then VDict (("name", VStr (Result.name i)) :: details i)
  else VDict [("name", VStr (Result.name i)); ("result", Result.result i)].

(** Two outputs with the same hosts in the same order, whose containers
    are related through their triples. *)
Definition related (R : list (string * string * value) ->
                        list (string * string * value) -> Prop)
    (a b : string * value) : Prop :=
  fst a = fst b /\ R (triples_of (fst a) (snd a)) (triples_of (fst b) (snd b)).

(** The dictionary an element of a list of records stands for. *)
Definition content (s : store) (r : record) : dict :=
  match r with
  | Shared l => s !!! l
  | Fresh d => d
  end.

(** The rows the ["extend"] branch makes of one record [d]: one per
    element when ["result"] is a list, the record itself otherwise. *)
Definition extend_rows (d : dict) : list dict :=
  match dict_get d "result" with
  | Some (VList items) => map (extend_item (dict_del d "result")) items
  | _ => [d]
  end.

(** [k in headers_exclude] does not raise: a list, a string or a
    dictionary. *)
Definition iterable (headers_exclude : value) : bool :=
  match headers_exclude with
  | VList _ | VStr _ | VDict _ => true
  | VNone | VBool _ | VInt _ => false
  end.

(** The field [k] is taken out of the records: [headers_exclude] is
    non-empty and [k in headers_exclude]. *)
Definition excludes (headers_exclude : value) (k : string) : bool :=
  truthy headers_exclude
  && match contains headers_exclude k with
     | Ok b => b
     | Raise _ => false
     end.

(** The row of a record [d] under the headers [hs]: one cell per header,
    empty for a field that is excluded or missing. *)
Definition row_cells (hs : list string) (headers_exclude : value) (d : dict)
  : list value :=
  map (fun h => if excludes headers_exclude h then VStr ""
                else dict_get_default d h (VStr "")) hs.

(** A record without the fields that are excluded. *)
Definition without (headers_exclude : value) (d : dict) : dict :=
  List.filter (fun kv => negb (excludes headers_exclude (fst kv))) d.

(** The elements the ["extend"] loop appends for the record at [l]. *)
Definition extend_elements (s : store) (l : loc) : list record :=
  match dict_get (s !!! l) "result" with
  | Some (VList items) =>
      map (fun i => Fresh (extend_item (dict_del (s !!! l) "result") i)) items
  | _ => [Shared l]
  end.

(* ================================================================== *)
(** ** Sample data *)
(* ================================================================== *)

Module Sample.

Definition show_clock : Result.t :=
  Result.mk "show clock" (VStr "12:00") false false "" None [].

Definition show_clock_again : Result.t :=
  Result.mk "show clock" (VStr "12:01") false false "" None [].

Definition gather_facts : Result.t :=
  Result.mk "_gather_facts" VNone false false "" None [].

(** a task run while the host carries an exception *)
Definition lost : Result.t :=
  Result.mk "show version" VNone false true ""
            None [("exception", VStr "connection lost")].

(** a task that raised *)
Definition broken : Result.t :=
  Result.mk "show run" VNone false false "" (Some (PyException "timeout")) [].

Definition run : AggregatedResult :=
  [("R1", [gather_facts; show_clock; lost; broken])].

Definition repeated : AggregatedResult :=
  [("R1", [show_clock; show_clock_again])].

(** Object 0 is a record whose result is a list, object 1 a record
    whose result is a string, object 2 a record without result as the
    serializer makes for [lost], object 3 a keyword dictionary. *)
Definition objects : store :=
  <[0 := [("host", VStr "R1"); ("name", VStr "show interfaces");
          ("result", VList [VDict [("interface", VStr "eth0"); ("mtu", VInt 1500)];
                            VStr "eth1 is down"])]]>
  (<[1 := [("host", VStr "R1"); ("hostname", VStr "r1.lab");
           ("result", VStr "ok")]]>
  (<[2 := [("name", VStr "show version");
           ("exception", VStr "connection lost")]]>
  (<[3 := [("tablefmt", VStr "grid")]]> ∅))).

End Sample.

(* ================================================================== *)
(** ** Further notions *)
(* ================================================================== *)

(** The last kept task of a host that has the name [n]. *)
Definition last_kept (n : string) (ts : list Result.t) : option Result.t :=
  List.find (fun i => String.eqb (Result.name i) n) (rev (kept ts)).

(** The field names of a record of the serializer, in the order the
    code writes them. *)
Definition exception_fields : list string := ["exception"].
Definition detail_fields : list string :=
  ["diff"; "changed"; "result"; "failed"; "exception"].

(** [hash(v)] does not raise: [v] is no list and no dictionary. *)
Definition hashable (v : value) : bool := negb (is_list v || is_dict v).

(** Headers the row step can look up: a list of hashable values, or
    anything that is no list. *)
Definition usable_headers (h : value) : bool :=
  match h with
  | VList hs => forallb hashable hs
  | _ => true
  end.

(** The branches of lines 107-139 that go on to [tabulate]. *)
Definition renders (t : tabulate_arg) : bool :=
  tab_eq_str t "brief" || tab_eq_bool t true || tab_eq_str t "extend"
  || match t with TDict _ => true | _ => false end.

(** The number of commas of a string. *)
Fixpoint commas (s : string) : nat :=
  match s with
  | EmptyString => 0
  | String c s' => (if Ascii.eqb c comma then 1 else 0) + commas s'
  end.

(** The keyword dictionary lines 107-130 settle on, if any: the preset,
    the resolved headers alone, or the caller's dictionary with the
    resolved headers added when it has none. *)
Definition keywords (s : store) (t : tabulate_arg) (headers : value) : option dict :=
  if tab_eq_str t "brief" then Some brief
  else if tab_eq_bool t true then Some [("headers", normalize headers)]
  else if tab_eq_str t "extend" then Some [("headers", normalize headers)]
  else match t with
       | TDict l =>
           Some (if dict_mem (s !!! l) "headers" then s !!! l
                 else s !!! l ++ [("headers", normalize headers)])
       | _ => None
       end.

(** More sample data: a host none of whose tasks is kept, and a keyword
    dictionary that has its own headers. *)
Module More.

Definition run : AggregatedResult :=
  ("R2", [Sample.gather_facts]) :: Sample.repeated.

Definition objects : store :=
  <[4 := [("headers", VList [VStr "host"; VStr "result"]); ("tablefmt", VStr "plain")]]>
  Sample.objects.

End More.

(* ================================================================== *)
(** ** Dictionaries: lookups after updates *)
(* ================================================================== *)

Ltac eqb_cases k k' :=
  let E := fresh "E" in
  destruct (String.eqb_spec k k') as [E | E]; [subst | ]; simpl; try congruence.

Lemma dict_get_set_eq (d : dict) k v : dict_get (dict_set d k v) k = Some v.
Proof.
  induction d as [| [k' v'] d IH]; simpl.
  - now rewrite String.eqb_refl.
  - eqb_cases k k'.
    + now rewrite String.eqb_refl.
    + destruct (String.eqb_spec k k'); congruence.
Qed.

Lemma dict_get_set_ne (d : dict) k k' v :
  k <> k' -> dict_get (dict_set d k v) k' = dict_get d k'.
Proof.
  intros Hne. induction d as [| [k0 v0] d IH]; simpl.
  - destruct (String.eqb_spec k' k); congruence.
  - eqb_cases k k0.
    + destruct (String.eqb_spec k' k0); congruence.
    + now rewrite IH.
Qed.

Lemma dict_get_set (d : dict) k k' v :
  dict_get (dict_set d k v) k' = if String.eqb k k' then Some v else dict_get d k'.
Proof.
  destruct (String.eqb_spec k k') as [-> | Hne].
  - apply dict_get_set_eq.
  - now apply dict_get_set_ne.
Qed.

Lemma dict_set_In (d : dict) k v k' v' :
  In (k', v') (dict_set d k v) -> (k', v') = (k, v) \/ In (k', v') d.
Proof.
  induction d as [| [k0 v0] d IH]; simpl.
  - intros [H | []]. now left.
  - eqb_cases k k0; simpl; intros [H | H]; auto.
    destruct (IH H); auto.
Qed.

Lemma dict_mem_get (d : dict) k :
  dict_mem d k = match dict_get d k with Some _ => true | None => false end.
Proof.
  induction d as [| [k' v'] d IH]; simpl; [reflexivity |].
  now destruct (String.eqb k k').
Qed.

Lemma dict_mem_In (d : dict) k : dict_mem d k = true <-> In k (keys d).
Proof.
  induction d as [| [k' v'] d IH]; simpl.
  - split; [discriminate | tauto].
  - eqb_cases k k'.
    + split; auto.
    + rewrite IH. split; [auto | intros [H | H]; congruence].
Qed.

Lemma dict_set_fresh (d : dict) k v :
  dict_mem d k = false -> dict_set d k v = d ++ [(k, v)].
Proof.
  induction d as [| [k' v'] d IH]; simpl; [reflexivity |].
  eqb_cases k k'. intros H. now rewrite IH.
Qed.

Lemma dict_get_del (d : dict) k k' :
  dict_get (dict_del d k) k' = if String.eqb k k' then None else dict_get d k'.
Proof.
  induction d as [| [k0 v0] d IH]; simpl.
  - now destruct (String.eqb k k').
  - eqb_cases k k0.
    + rewrite IH. eqb_cases k0 k'.
      destruct (String.eqb_spec k' k0); congruence.
    + rewrite IH. eqb_cases k k'.
      destruct (String.eqb_spec k' k0); congruence.
Qed.

Lemma dict_get_app (d e : dict) k :
  dict_get (d ++ e) k =
  match dict_get d k with Some v => Some v | None => dict_get e k end.
Proof.
  induction d as [| [k' v'] d IH]; simpl; [reflexivity |].
  now destruct (String.eqb k k').
Qed.

Lemma keys_dict_set (d : dict) k v :
  keys (dict_set d k v) = if dict_mem d k then keys d else keys d ++ [k].
Proof.
  induction d as [| [k' v'] d IH]; simpl; [reflexivity |].
  eqb_cases k k'. unfold keys in *. rewrite IH.
  now destruct (dict_mem d k).
Qed.

Lemma NoDup_keys_set (d : dict) k v :
  NoDup (keys d) -> NoDup (keys (dict_set d k v)).
Proof.
  intros H. rewrite keys_dict_set.
  destruct (dict_mem d k) eqn:E; [assumption |].
  apply NoDup_app. repeat split; auto.
  - intros x Hx Hx'. apply list_elem_of_In in Hx, Hx'.
    destruct Hx' as [<- | []].
    apply dict_mem_In in Hx. congruence.
  - apply NoDup_singleton.
Qed.

(* ================================================================== *)
(** ** ResultSerializer: the loops *)
(* ================================================================== *)

#[local] Arguments str_in : simpl never.

Section Serializer.
Variable add_details : bool.

Lemma dict_task_skipped inner i :
  skipped (Result.name i) = true -> dict_task add_details inner i = inner.
Proof.
  unfold skipped, dict_task. intros H.
  destruct (String.prefix "_" (Result.name i)); [reflexivity |].
  simpl in H. now rewrite H.
Qed.

Lemma list_task_skipped inner i :
  skipped (Result.name i) = true -> list_task add_details inner i = inner.
Proof.
  unfold skipped, list_task. intros H.
  destruct (String.prefix "_" (Result.name i)); [reflexivity |].
  simpl in H. now rewrite H.
Qed.

Lemma dict_task_kept inner i :
  skipped (Result.name i) = false ->
  dict_task add_details inner i = dict_set inner (Result.name i) (leaf add_details i).
Proof.
  unfold skipped, dict_task, leaf. intros H.
  destruct (String.prefix "_" (Result.name i)); [discriminate |].
  simpl in H. rewrite H.
  destruct (truthy (host_exception i)); [reflexivity |].
  now destruct add_details.
Qed.

Lemma list_task_kept inner i :
  skipped (Result.name i) = false ->
  list_task add_details inner i = inner ++ [flat_record add_details i].
Proof.
  unfold skipped, list_task, flat_record. intros H.
  destruct (String.prefix "_" (Result.name i)); [discriminate |].
  simpl in H. rewrite H.
  destruct (truthy (host_exception i)); [reflexivity |].
  now destruct add_details.
Qed.

(** The list loop appends one record per kept task, in order. *)
Lemma list_loop ts acc :
  fold_left (list_task add_details) ts acc = acc ++ map (flat_record add_details) (kept ts).
Proof.
  revert acc. induction ts as [| i ts IH]; intros acc; simpl.
  - now rewrite app_nil_r.
  - rewrite IH. unfold kept. simpl.
    destruct (skipped (Result.name i)) eqn:E; simpl.
    + now rewrite list_task_skipped.
    + rewrite list_task_kept by assumption. now rewrite <- app_assoc.
Qed.

(** The dictionary loop is a run of assignments, one per kept task. *)
Lemma dict_loop ts acc :
  fold_left (dict_task add_details) ts acc =
  fold_left (fun d i => dict_set d (Result.name i) (leaf add_details i)) (kept ts) acc.
Proof.
  revert acc. induction ts as [| i ts IH]; intros acc; simpl; [reflexivity |].
  rewrite IH. unfold kept. simpl.
  destruct (skipped (Result.name i)) eqn:E; simpl.
  - now rewrite dict_task_skipped.
  - now rewrite dict_task_kept.
Qed.

Lemma dict_loop_get_other ks acc n :
  (forall j, In j ks -> Result.name j <> n) ->
  dict_get (fold_left (fun d i => dict_set d (Result.name i) (leaf add_details i)) ks acc) n
  = dict_get acc n.
Proof.
  revert acc. induction ks as [| j ks IH]; intros acc H; simpl; [reflexivity |].
  rewrite IH by (intros; apply H; now right).
  apply dict_get_set_ne, H. now left.
Qed.

(** A host met once in the collection ends with the container its own
    tasks produce. *)
Lemma host_loop_get_other (f : list Result.t -> value) c ret h :
  ~ In h (map fst c) ->
  dict_get (fold_left (fun r item => dict_set r (fst item) (f (snd item))) c ret) h
  = dict_get ret h.
Proof.
  revert ret. induction c as [| [h' ts'] c IH]; intros ret H; simpl in *;
    [reflexivity |].
  rewrite IH by tauto. apply dict_get_set_ne. tauto.
Qed.

Lemma host_loop_get (f : list Result.t -> value) c ret h ts :
  NoDup (map fst c) -> In (h, ts) c ->
  dict_get (fold_left (fun r item => dict_set r (fst item) (f (snd item))) c ret) h
  = Some (f ts).
Proof.
  revert ret. induction c as [| [h' ts'] c IH]; intros ret Hnd Hin; simpl in *;
    [tauto |].
  apply NoDup_cons in Hnd as [Hnotin Hnd].
  destruct Hin as [Heq | Hin].
  - injection Heq as -> ->.
    rewrite host_loop_get_other.
    + apply dict_get_set_eq.
    + intros Hin. apply Hnotin. now apply list_elem_of_In.
  - now apply IH.
Qed.

Lemma serializer_list_get c h ts :
  NoDup (map fst c) -> In (h, ts) c ->
  dict_get (ResultSerializer c add_details false) h
  = Some (VList (map (flat_record add_details) (kept ts))).
Proof.
  intros Hnd Hin. unfold ResultSerializer, list_host.
  rewrite (host_loop_get
             (fun ts => VList (fold_left (list_task add_details) ts [])) c [] h ts Hnd Hin).
  now rewrite list_loop.
Qed.

Lemma serializer_dict_get c h ts :
  NoDup (map fst c) -> In (h, ts) c ->
  dict_get (ResultSerializer c add_details true) h
  = Some (VDict (fold_left (fun d i => dict_set d (Result.name i) (leaf add_details i))
                           (kept ts) [])).
Proof.
  intros Hnd Hin. unfold ResultSerializer, dict_host.
  rewrite (host_loop_get
             (fun ts => VDict (fold_left (dict_task add_details) ts [])) c [] h ts Hnd Hin).
  now rewrite dict_loop.
Qed.

End Serializer.

(* ================================================================== *)
(** ** ResultSerializer: skipped tasks *)
(* ================================================================== *)

Lemma str_in_In k l : str_in k l = true <-> In k l.
Proof.
  unfold str_in. rewrite existsb_exists. split.
  - intros [x [Hx E]]. apply String.eqb_eq in E. now subst.
  - intros H. exists k. split; [assumption | apply String.eqb_refl].
Qed.

Lemma skipped_true n :
  skipped n = true <-> String.prefix "_" n = true \/ In n skip_tasks.
Proof.
  unfold skipped. rewrite orb_true_iff. now rewrite str_in_In.
Qed.

Lemma In_kept i ts :
  In i (kept ts) <-> In i ts /\ skipped (Result.name i) = false.
Proof.
  unfold kept. rewrite filter_In. now rewrite negb_true_iff.
Qed.

Lemma kept_app ts1 ts2 : kept (ts1 ++ ts2) = kept ts1 ++ kept ts2.
Proof. apply List.filter_app. Qed.

Lemma kept_cons_skipped i ts :
  skipped (Result.name i) = true -> kept (i :: ts) = kept ts.
Proof. intros H. unfold kept. simpl. now rewrite H. Qed.

Lemma kept_cons_kept i ts :
  skipped (Result.name i) = false -> kept (i :: ts) = i :: kept ts.
Proof. intros H. unfold kept. simpl. now rewrite H. Qed.

Lemma keys_dict_set_In (d : dict) k v k' :
  In k' (keys (dict_set d k v)) -> k' = k \/ In k' (keys d).
Proof.
  rewrite keys_dict_set. destruct (dict_mem d k); [tauto |].
  rewrite in_app_iff. simpl. intuition.
Qed.

Lemma record_name_flat_record ad i :
  record_name (flat_record ad i) = [Result.name i].
Proof.
  unfold flat_record.
  destruct (truthy (host_exception i)); [reflexivity |].
  now destruct ad.
Qed.

Lemma names_of_list_shape ad ks n :
  In n (names_of (VList (map (flat_record ad) ks))) ->
  exists i, In i ks /\ Result.name i = n.
Proof.
  simpl. rewrite in_flat_map. intros [r [Hr Hn]].
  apply in_map_iff in Hr as [i [<- Hi]].
  rewrite record_name_flat_record in Hn. destruct Hn as [<- | []]. eauto.
Qed.

Lemma names_of_dict_shape ad ks acc n :
  In n (keys (fold_left (fun d i => dict_set d (Result.name i) (leaf ad i)) ks acc)) ->
  In n (keys acc) \/ exists i, In i ks /\ Result.name i = n.
Proof.
  revert acc. induction ks as [| j ks IH]; intros acc; simpl; [tauto |].
  intros H. apply IH in H as [H | [i [Hi <-]]].
  - apply keys_dict_set_In in H as [-> | H]; eauto.
  - eauto.
Qed.

(** Whatever containers the host loop stores, only their names show. *)
Lemma task_names_host_loop (f : list Result.t -> value) (P : string -> Prop) c ret :
  (forall ts n, In n (names_of (f ts)) -> P n) ->
  (forall n, In n (task_names ret) -> P n) ->
  forall n,
    In n (task_names
            (fold_left (fun r item => dict_set r (fst item) (f (snd item))) c ret)) ->
    P n.
Proof.
  intros Hf. revert ret. induction c as [| [h ts] c IH]; intros ret Hret n; simpl.
  - apply Hret.
  - apply IH. clear n. intros n Hn.
    unfold task_names in Hn. apply in_flat_map in Hn as [[h' v'] [Hin Hn]].
    apply dict_set_In in Hin as [Heq | Hin].
    + injection Heq as -> ->. simpl in Hn. eauto.
    + apply Hret. unfold task_names. apply in_flat_map. eauto.
Qed.

Lemma serializer_names c ad td n :
  In n (task_names (ResultSerializer c ad td)) -> skipped n = false.
Proof.
  unfold ResultSerializer. destruct td.
  - apply (task_names_host_loop
             (fun ts => VDict (fold_left (dict_task ad) ts []))
             (fun n => skipped n = false)).
    + intros ts m Hm. rewrite dict_loop in Hm. simpl in Hm.
      apply names_of_dict_shape in Hm as [[] | [i [Hi <-]]].
      now apply In_kept in Hi.
    + intros m [].
  - apply (task_names_host_loop
             (fun ts => VList (fold_left (list_task ad) ts []))
             (fun n => skipped n = false)).
    + intros ts m Hm. rewrite list_loop in Hm.
      apply names_of_list_shape in Hm as [i [Hi <-]].
      now apply In_kept in Hi.
    + intros m [].
Qed.

Lemma serializer_drop_skipped c1 c2 h ts1 i ts2 ad td :
  skipped (Result.name i) = true ->
  ResultSerializer (c1 ++ (h, ts1 ++ i :: ts2) :: c2) ad td
  = ResultSerializer (c1 ++ (h, ts1 ++ ts2) :: c2) ad td.
Proof.
  intros H. unfold ResultSerializer.
  destruct td; rewrite !fold_left_app; simpl; f_equal.
  - unfold dict_host. simpl. rewrite !fold_left_app. simpl.
    now rewrite dict_task_skipped.
  - unfold list_host. simpl. rewrite !fold_left_app. simpl.
    now rewrite list_task_skipped.
Qed.

(** C8. For every collection and both flags, a task whose name begins
    with an underscore or is in [skip_tasks] contributes nothing: no
    name of the output, in either shape, is such a name, and taking the
    task out of its host's sequence leaves the output as it is. *)
Theorem C8_skipped_tasks_contribute_nothing :
  forall (c : AggregatedResult) (add_details to_dict : bool),
    (forall n, String.prefix "_" n = true \/ In n skip_tasks ->
               ~ In n (task_names (ResultSerializer c add_details to_dict)))
    /\
    (forall c1 h ts1 i ts2 c2,
        c = c1 ++ (h, ts1 ++ i :: ts2) :: c2 ->
        String.prefix "_" (Result.name i) = true \/ In (Result.name i) skip_tasks ->
        ResultSerializer c add_details to_dict
        = ResultSerializer (c1 ++ (h, ts1 ++ ts2) :: c2) add_details to_dict).
Proof.
  intros c ad td. split.
  - intros n Hn Hin. apply skipped_true in Hn.
    apply serializer_names in Hin. congruence.
  - intros c1 h ts1 i ts2 c2 -> Hi. apply skipped_true in Hi.
    now apply serializer_drop_skipped.
Qed.

(* ================================================================== *)
(** ** ResultSerializer: the record of one task *)
(* ================================================================== *)

Lemma skipped_false n :
  String.prefix "_" n = false -> ~ In n skip_tasks -> skipped n = false.
Proof.
  intros H1 H2. destruct (skipped n) eqn:E; [| reflexivity].
  apply skipped_true in E as [E | E]; [congruence | contradiction].
Qed.

(** In the list shape the record of a kept task stands after the
    records of the kept tasks before it. *)
Lemma list_shape_at ad c h ts1 i ts2 :
  NoDup (map fst c) -> In (h, ts1 ++ i :: ts2) c ->
  skipped (Result.name i) = false ->
  dict_get (ResultSerializer c ad false) h
  = Some (VList (map (flat_record ad) (kept ts1)
                 ++ flat_record ad i :: map (flat_record ad) (kept ts2))).
Proof.
  intros Hnd Hin Hk.
  rewrite (serializer_list_get ad c h _ Hnd Hin).
  now rewrite kept_app, kept_cons_kept, map_app.
Qed.

(** In the dictionary shape the entry of a kept task is its own value
    unless a later kept task of the same host has the same name. *)
Lemma dict_shape_at ad c h ts1 i ts2 :
  NoDup (map fst c) -> In (h, ts1 ++ i :: ts2) c ->
  skipped (Result.name i) = false ->
  (forall j, In j ts2 -> skipped (Result.name j) = false ->
             Result.name j <> Result.name i) ->
  exists inner,
    dict_get (ResultSerializer c ad true) h = Some (VDict inner)
    /\ dict_get inner (Result.name i) = Some (leaf ad i).
Proof.
  intros Hnd Hin Hk Hlater.
  rewrite (serializer_dict_get ad c h _ Hnd Hin).
  eexists. split; [reflexivity |].
  rewrite kept_app, kept_cons_kept, fold_left_app by assumption. simpl.
  rewrite dict_loop_get_other.
  - apply dict_get_set_eq.
  - intros j Hj. apply In_kept in Hj as [Hj Hjk]. now apply Hlater.
Qed.

(** C6. A task that is not skipped and whose host carries a non-empty
    ["exception"] gives, for both values of [add_details], the record
    [{"exception": v}] under its name in the dictionary shape and the
    record [{"name": n, "exception": v}] in the list shape, with no
    other field.  The loop bodies store exactly that; in the list shape
    it stands in the host's list after the records of the earlier kept
    tasks; in the dictionary shape it is the entry of its name unless a
    later kept task of that host has the same name. *)
Theorem C6_host_exception_record :
  forall (c : AggregatedResult) h ts1 i ts2 v (add_details : bool),
    NoDup (map fst c) ->
    In (h, ts1 ++ i :: ts2) c ->
    String.prefix "_" (Result.name i) = false ->
    ~ In (Result.name i) skip_tasks ->
    dict_get (Result.host i) "exception" = Some v ->
    truthy v = true ->
    (forall inner,
        dict_task add_details inner i
        = dict_set inner (Result.name i) (VDict [("exception", v)]))
    /\ (forall inner,
        list_task add_details inner i
        = inner ++ [VDict [("name", VStr (Result.name i)); ("exception", v)]])
    /\ (exists before after,
        dict_get (ResultSerializer c add_details false) h
        = Some (VList (before
                       ++ VDict [("name", VStr (Result.name i)); ("exception", v)]
                       :: after))
        /\ length before = length (kept ts1))
    /\ ((forall j, In j ts2 -> skipped (Result.name j) = false ->
                   Result.name j <> Result.name i) ->
        exists inner,
          dict_get (ResultSerializer c add_details true) h = Some (VDict inner)
          /\ dict_get inner (Result.name i) = Some (VDict [("exception", v)])).
Proof.
  intros c h ts1 i ts2 v ad Hnd Hin Hp Hs Hv Ht.
  pose proof (skipped_false _ Hp Hs) as Hk.
  assert (Hhe : host_exception i = v).
  { unfold host_exception, dict_get_default. now rewrite Hv. }
  assert (Hleaf : leaf ad i = VDict [("exception", v)]).
  { unfold leaf. now rewrite Hhe, Ht. }
  assert (Hrec : flat_record ad i
                 = VDict [("name", VStr (Result.name i)); ("exception", v)]).
  { unfold flat_record. now rewrite Hhe, Ht. }
  repeat split.
  - intros inner. now rewrite dict_task_kept, Hleaf.
  - intros inner. now rewrite list_task_kept, Hrec.
  - exists (map (flat_record ad) (kept ts1)), (map (flat_record ad) (kept ts2)).
    split.
    + now rewrite (list_shape_at ad c h ts1 i ts2 Hnd Hin Hk), Hrec.
    + apply length_map.
  - intros Hlater.
    destruct (dict_shape_at ad c h ts1 i ts2 Hnd Hin Hk Hlater) as [inner [H1 H2]].
    exists inner. now rewrite <- Hleaf.
Qed.

(** C7. A task that is not skipped and whose host carries no exception
    gives, with [add_details], a record whose ["failed"] is [True] when
    the task's own exception is set and the task's [failed] flag
    otherwise, and whose ["exception"] is [str] of the task's exception,
    the string ["None"] when there is none.  This holds of the record in
    the list shape and of the entry in the dictionary shape (there,
    unless a later kept task of that host has the same name). *)
Theorem C7_details_failed_and_exception :
  forall (c : AggregatedResult) h ts1 i ts2,
    NoDup (map fst c) ->
    In (h, ts1 ++ i :: ts2) c ->
    String.prefix "_" (Result.name i) = false ->
    ~ In (Result.name i) skip_tasks ->
    truthy (host_exception i) = false ->
    let failed :=
      VBool (match Result.exception i with
             | Some _ => true
             | None => Result.failed i
             end) in
    let text :=
      VStr (match Result.exception i with
            | Some e => exc_str e
            | None => "None"
            end) in
    (exists before r after,
        dict_get (ResultSerializer c true false) h
        = Some (VList (before ++ VDict r :: after))
        /\ length before = length (kept ts1)
        /\ dict_get r "name" = Some (VStr (Result.name i))
        /\ dict_get r "failed" = Some failed
        /\ dict_get r "exception" = Some text)
    /\ ((forall j, In j ts2 -> skipped (Result.name j) = false ->
                   Result.name j <> Result.name i) ->
        exists inner r,
          dict_get (ResultSerializer c true true) h = Some (VDict inner)
          /\ dict_get inner (Result.name i) = Some (VDict r)
          /\ dict_get r "failed" = Some failed
          /\ dict_get r "exception" = Some text).
Proof.
  intros c h ts1 i ts2 Hnd Hin Hp Hs Hf failed text.
  pose proof (skipped_false _ Hp Hs) as Hk.
  split.
  - exists (map (flat_record true) (kept ts1)),
           (("name", VStr (Result.name i)) :: details i),
           (map (flat_record true) (kept ts2)).
    repeat split.
    + rewrite (list_shape_at true c h ts1 i ts2 Hnd Hin Hk).
      unfold flat_record. now rewrite Hf.
    + apply length_map.
  - intros Hlater.
    destruct (dict_shape_at true c h ts1 i ts2 Hnd Hin Hk Hlater) as [inner [H1 H2]].
    exists inner, (details i). repeat split; [assumption |].
    rewrite H2. unfold leaf. now rewrite Hf.
Qed.

(* ================================================================== *)
(** ** ResultSerializer: the two shapes compared *)
(* ================================================================== *)

Lemma record_triple_flat_record h i :
  record_triple h (flat_record false i) = [(h, Result.name i, leaf false i)].
Proof.
  unfold flat_record, leaf.
  now destruct (truthy (host_exception i)).
Qed.

Lemma triples_of_list_shape h ks :
  triples_of h (VList (map (flat_record false) ks))
  = map (fun i => (h, Result.name i, leaf false i)) ks.
Proof.
  simpl. induction ks as [| i ks IH]; simpl; [reflexivity |].
  now rewrite record_triple_flat_record, IH.
Qed.

(** Assignments under distinct new names append in order. *)
Lemma dict_loop_distinct ad ks acc :
  NoDup (map Result.name ks) ->
  (forall i, In i ks -> dict_mem acc (Result.name i) = false) ->
  fold_left (fun d i => dict_set d (Result.name i) (leaf ad i)) ks acc
  = acc ++ map (fun i => (Result.name i, leaf ad i)) ks.
Proof.
  revert acc. induction ks as [| j ks IH]; intros acc Hnd Hfresh; simpl.
  - now rewrite app_nil_r.
  - apply NoDup_cons in Hnd as [Hj Hnd].
    rewrite dict_set_fresh by (apply Hfresh; now left).
    rewrite IH; [now rewrite <- app_assoc | assumption |].
    intros i Hi. rewrite dict_mem_get, dict_get_app. simpl.
    specialize (Hfresh i (or_intror Hi)). rewrite dict_mem_get in Hfresh.
    destruct (dict_get acc (Result.name i)); [discriminate |].
    destruct (String.eqb_spec (Result.name i) (Result.name j)) as [E | E];
      [| reflexivity].
    exfalso. apply Hj. apply list_elem_of_In. rewrite <- E. now apply in_map.
Qed.

(** Whatever the names, an entry of the dictionary loop is the value of
    one of the tasks. *)
Lemma dict_loop_In ad ks acc k v :
  In (k, v) (fold_left (fun d i => dict_set d (Result.name i) (leaf ad i)) ks acc) ->
  In (k, v) acc \/ exists i, In i ks /\ k = Result.name i /\ v = leaf ad i.
Proof.
  revert acc. induction ks as [| j ks IH]; intros acc; simpl; [tauto |].
  intros H. apply IH in H as [H | [i [Hi [-> ->]]]].
  - apply dict_set_In in H as [H | H]; [| tauto].
    injection H as -> ->. right. exists j. tauto.
  - right. exists i. tauto.
Qed.

Section HostLoop.
Variable R : list (string * string * value) -> list (string * string * value) -> Prop.

Lemma dict_set_related d e h v w :
  Forall2 (related R) d e ->
  R (triples_of h v) (triples_of h w) ->
  Forall2 (related R) (dict_set d h v) (dict_set e h w).
Proof.
  intros H Hvw. induction H as [| [k1 v1] [k2 v2] d e [Hk Hr] H IH]; simpl.
  - constructor; [split; [reflexivity | exact Hvw] | constructor].
  - simpl in Hk. subst k2. destruct (String.eqb h k1).
    + constructor; [split; [reflexivity | exact Hvw] | assumption].
    + constructor; [split; [reflexivity | exact Hr] | exact IH].
Qed.

Lemma host_loop_related (f g : list Result.t -> value) c d e :
  (forall h ts, In (h, ts) c -> R (triples_of h (f ts)) (triples_of h (g ts))) ->
  Forall2 (related R) d e ->
  Forall2 (related R)
    (fold_left (fun r item => dict_set r (fst item) (f (snd item))) c d)
    (fold_left (fun r item => dict_set r (fst item) (g (snd item))) c e).
Proof.
  revert d e. induction c as [| [h ts] c IH]; intros d e Hfg Hde; simpl;
    [assumption |].
  apply IH.
  - intros h' ts' Hin. apply Hfg. now right.
  - apply dict_set_related; [assumption |]. apply Hfg. now left.
Qed.
End HostLoop.

Lemma related_eq_triples d e :
  Forall2 (related eq) d e -> triples d = triples e.
Proof.
  induction 1 as [| a b d e [Hk Hr] H IH]; [reflexivity |].
  unfold triples in *. simpl. now rewrite Hr, IH.
Qed.

Lemma related_incl_triples d e :
  Forall2 (related (fun x y => forall t, In t x -> In t y)) d e ->
  forall t, In t (triples d) -> In t (triples e).
Proof.
  induction 1 as [| a b d e [Hk Hr] H IH]; intros t; [tauto |].
  unfold triples in *. simpl. rewrite !in_app_iff.
  intros [Ht | Ht]; [left; now apply Hr | right; now apply IH].
Qed.

(** C4, as the code has it. Every (host, task name, result) triple of
    the dictionary shape is a triple of the list shape; and when no host
    has two kept tasks of the same name the two shapes hold the same
    triples, in the same order. *)
Theorem C4_shapes_hold_same_triples :
  forall c : AggregatedResult,
    (forall t, In t (triples (ResultSerializer c false true)) ->
               In t (triples (ResultSerializer c false false)))
    /\ ((forall h ts, In (h, ts) c -> NoDup (map Result.name (kept ts))) ->
        triples (ResultSerializer c false true)
        = triples (ResultSerializer c false false)).
Proof.
  intros c. unfold ResultSerializer, dict_host, list_host. split.
  - apply related_incl_triples.
    apply (host_loop_related _
             (fun ts => VDict (fold_left (dict_task false) ts []))
             (fun ts => VList (fold_left (list_task false) ts []))).
    + intros h ts _ t. rewrite dict_loop, list_loop. simpl app.
      rewrite triples_of_list_shape. simpl.
      intros Ht. apply in_map_iff in Ht as [[k v] [<- Hkv]].
      apply dict_loop_In in Hkv as [[] | [i [Hi [-> ->]]]].
      apply in_map_iff. exists i. tauto.
    + constructor.
  - intros Hnd. apply related_eq_triples.
    apply (host_loop_related _
             (fun ts => VDict (fold_left (dict_task false) ts []))
             (fun ts => VList (fold_left (list_task false) ts []))).
    + intros h ts Hin. rewrite dict_loop, list_loop. simpl app.
      rewrite triples_of_list_shape.
      rewrite dict_loop_distinct; [| now apply (Hnd h) | reflexivity].
      simpl. now rewrite map_map.
    + constructor.
Qed.

(* ================================================================== *)
(** ** TabulateFormatter: the loops that only read *)
(* ================================================================== *)

Lemma deref_run r s : deref r s = (s, Ok (content s r)).
Proof. now destruct r. Qed.

Lemma map_exc_ok {A B} (f : A -> exc B) (g : A -> B) l :
  (forall x, In x l -> f x = Ok (g x)) -> map_exc f l = Ok (map g l).
Proof.
  induction l as [| x l IH]; intros H; simpl; [reflexivity |].
  rewrite H by now left. simpl. rewrite IH; [reflexivity |].
  intros y Hy. apply H. now right.
Qed.

(** A loop whose body reads the store and appends one element. *)
Lemma foldM_read {A B} (f : list A -> B -> M (list A)) (g : store -> B -> exc A) :
  (forall acc x s,
      f acc x s = (s, match g s x with
                      | Ok y => Ok (acc ++ [y])
                      | Raise e => Raise e
                      end)) ->
  forall l acc s,
    foldM f acc l s = (s, match map_exc (g s) l with
                          | Ok ys => Ok (acc ++ ys)
                          | Raise e => Raise e
                          end).
Proof.
  intros Hf. induction l as [| x l IH]; intros acc s; simpl.
  - unfold ret. now rewrite app_nil_r.
  - unfold bind. rewrite Hf. destruct (g s x) as [y | e]; simpl; [| reflexivity].
    rewrite IH. destruct (map_exc (g s) l); simpl; [| reflexivity].
    now rewrite <- app_assoc.
Qed.

Lemma map_exc_then {A B C} (f : A -> exc B) (g : B -> C) l :
  map_exc (fun x => bind_exc (f x) (fun y => Ok (g y))) l
  = bind_exc (map_exc f l) (fun ys => Ok (map g ys)).
Proof.
  induction l as [| x l IH]; simpl; [reflexivity |].
  destruct (f x) as [y | e]; simpl; [| reflexivity].
  rewrite IH. now destruct (map_exc f l).
Qed.

Lemma exclude_run hx rs s :
  exclude hx (TRecords rs) s
  = (s, match map_exc (fun r => exclude_record hx (content s r)) rs with
        | Ok ds => Ok (TRecords (map Fresh ds))
        | Raise e => Raise e
        end).
Proof.
  unfold exclude, bind.
  rewrite (foldM_read _ (fun s r => bind_exc (exclude_record hx (content s r))
                                             (fun d => Ok (Fresh d)))).
  - rewrite map_exc_then. now destruct (map_exc _ rs).
  - intros acc x s0. unfold bind. rewrite deref_run. unfold lift, ret.
    now destruct (exclude_record hx (content s0 x)).
Qed.

Lemma rows_run hs rs s :
  rows hs (TRecords rs) s
  = (s, map_exc (fun r => bind_exc (map_exc (cell (content s r)) hs)
                                   (fun cells => Ok (VList cells))) rs).
Proof.
  unfold rows.
  rewrite (foldM_read _ (fun s r => bind_exc (map_exc (cell (content s r)) hs)
                                             (fun cells => Ok (VList cells)))).
  - now destruct (map_exc _ rs).
  - intros acc x s0. unfold bind. rewrite deref_run. unfold lift, ret.
    now destruct (map_exc (cell (content s0 x)) hs).
Qed.

Lemma as_data_run rs s :
  as_data (TRecords rs) s = (s, Ok (VList (map (fun r => VDict (content s r)) rs))).
Proof.
  unfold as_data, bind.
  rewrite (foldM_read _ (fun s r => Ok (VDict (content s r)))).
  - now rewrite (map_exc_ok _ (fun r => VDict (content s r))).
  - intros acc x s0. unfold bind. now rewrite deref_run.
Qed.

(** Lines 141-155 leave the store as it is. *)
Lemma render_store rt kwargs hx s : fst (render rt kwargs hx s) = s.
Proof.
  unfold render, bind.
  assert (H1 : forall rt', fst (match dict_get kwargs "headers" with
                                | None => raise KeyError
                                | Some (VList hs) =>
                                    let! rs := rows hs rt' in
                                    ret (Tabulate (VList rs) kwargs)
                                | Some _ =>
                                    let! data := as_data rt' in
                                    ret (Tabulate data kwargs)
                                end s) = s).
  { intros rt'. destruct (dict_get kwargs "headers") as [[| | | | hs |] |];
      try reflexivity; unfold bind;
      try (destruct rt' as [m | rs]; [reflexivity | now rewrite as_data_run]).
    destruct rt' as [m | rs].
    - simpl. destruct hs; [reflexivity |]. now destruct m.
    - rewrite rows_run. now destruct (map_exc _ rs). }
  destruct (truthy hx); [| apply H1].
  destruct rt as [[| kv m] | rs]; try reflexivity.
  - apply H1.
  - rewrite exclude_run. destruct (map_exc _ rs); [apply H1 | reflexivity].
Qed.

(* ================================================================== *)
(** ** TabulateFormatter: what the call does to the store *)
(* ================================================================== *)

Lemma extend_record_shared acc l s :
  extend_record acc (Shared l) s
  = match dict_get (s !!! l) "result" with
    | None => (s, Raise KeyError)
    | Some (VList items) =>
        (<[l := dict_del (s !!! l) "result"]> s,
         Ok (acc ++ map (fun i => Fresh (extend_item (dict_del (s !!! l) "result") i))
                        items))
    | Some _ => (s, Ok (acc ++ [Shared l]))
    end.
Proof.
  unfold extend_record, bind. simpl.
  now destruct (dict_get (s !!! l) "result") as [[| | | | |] |].
Qed.

Lemma extend_record_fresh acc d s : fst (extend_record acc (Fresh d) s) = s.
Proof.
  unfold extend_record, bind. simpl.
  now destruct (dict_get d "result") as [[| | | | |] |].
Qed.

(** The loop of the ["extend"] branch changes an object only by taking
    a list-valued ["result"] out of a record of the list. *)
Lemma extend_loop_store rs :
  forall acc (s : store) (l : loc),
    let s' := fst (foldM extend_record acc rs s) in
    s' !!! l = s !!! l
    \/ (In (Shared l) rs
        /\ (exists items, dict_get (s !!! l) "result" = Some (VList items))
        /\ s' !!! l = dict_del (s !!! l) "result").
Proof.
  induction rs as [| r rs IH]; intros acc s l; simpl; [now left |].
  unfold bind.
  destruct r as [l0 | d].
  - rewrite extend_record_shared.
    destruct (dict_get (s !!! l0) "result") as [v |] eqn:Hres; [| now left].
    destruct v as [| | | | items |];
      try (destruct (IH (acc ++ [Shared l0]) s l) as [H | [H1 [H2 H3]]];
           [now left | right; repeat split; auto]).
    set (s1 := <[l0 := dict_del (s !!! l0) "result"]> s).
    set (acc1 := acc ++ _).
    destruct (Nat.eq_dec l0 l) as [-> | Hne].
    + assert (Hs1 : s1 !!! l = dict_del (s !!! l) "result")
        by apply lookup_total_insert_eq.
      destruct (IH acc1 s1 l) as [H | [H1 [[items' H2] H3]]].
      * right. repeat split; [now left | eauto | congruence].
      * rewrite Hs1, dict_get_del in H2. discriminate.
    + assert (Hs1 : s1 !!! l = s !!! l)
        by now apply lookup_total_insert_ne.
      destruct (IH acc1 s1 l) as [H | [H1 [H2 H3]]].
      * left. congruence.
      * right. rewrite Hs1 in *. repeat split; auto.
  - pose proof (extend_record_fresh acc d s) as Hd.
    destruct (extend_record acc (Fresh d) s) as [s1 [acc1 | e]]; simpl in Hd; subst s1.
    + destruct (IH acc1 s l) as [H | [H1 [H2 H3]]];
        [now left | right; repeat split; auto].
    + now left.
Qed.

Lemma setdefault_run l h s :
  setdefault_headers l h s
  = if dict_mem (s !!! l) "headers" then (s, Ok (s !!! l))
    else (<[l := s !!! l ++ [("headers", h)]]> s, Ok (s !!! l ++ [("headers", h)])).
Proof.
  unfold setdefault_headers, bind, read, write, ret.
  destruct (dict_mem (s !!! l) "headers") eqn:E; [reflexivity |].
  rewrite dict_set_fresh by assumption.
  now rewrite lookup_total_insert_eq.
Qed.

Lemma tab_eq_str_true t s : tab_eq_str t s = true -> t = TStr s.
Proof.
  destruct t; simpl; try discriminate. intros H. apply String.eqb_eq in H. now subst.
Qed.

(** The store a call ends with: the one it began with, the one the
    ["extend"] loop leaves, or the one [setdefault] leaves. *)
Lemma TabulateFormatter_store has result tabulate headers hx (s : store) :
  let s' := fst (TabulateFormatter has result tabulate headers hx s) in
  s' = s
  \/ (tabulate = TStr "extend"
      /\ exists records,
           result = RList records
           /\ s' = fst (foldM extend_record [] (map Shared records) s))
  \/ (exists l0,
         tabulate = TDict l0
         /\ dict_mem (s !!! l0) "headers" = false
         /\ s' = <[l0 := s !!! l0 ++ [("headers", normalize headers)]]> s).
Proof.
  unfold TabulateFormatter.
  destruct has; cbn [negb]; [| now left].
  assert (Hrest : forall rt : table,
             match tabulate with
             | TDict l => True
             | _ => fst ((if tab_eq_bool tabulate false
                          then ret Original else ret Original) s) = s
             end).
  { intros _. destruct tabulate; try exact I; now destruct (tab_eq_bool _ false). }
  assert (Hdict : forall (rt : table) (l0 : loc),
             let s' := fst ((let! kwargs := setdefault_headers l0 (normalize headers) in
                             render rt kwargs (normalize hx)) s) in
             s' = s \/ (dict_mem (s !!! l0) "headers" = false
                        /\ s' = <[l0 := s !!! l0 ++ [("headers", normalize headers)]]> s)).
  { intros rt l0. unfold bind. rewrite setdefault_run.
    destruct (dict_mem (s !!! l0) "headers"); cbn iota; rewrite render_store;
      [now left | now right]. }
  destruct result as [nr | records |]; [| | now left].
  - generalize (ResultSerializer nr true false). intros m.
    destruct (tab_eq_str tabulate "brief"); [rewrite render_store; now left |].
    destruct (tab_eq_bool tabulate true); [rewrite render_store; now left |].
    destruct (tab_eq_str tabulate "extend").
    { unfold bind, extend. destruct m; cbn [fst ret raise];
        [rewrite render_store |]; now left. }
    specialize (Hrest (TMapping m)).
    destruct tabulate as [| | | l0 |]; try (now left).
    destruct (Hdict (TMapping m) l0) as [H | [H1 H2]]; [now left |].
    right. right. exists l0. auto.
  - destruct (tab_eq_str tabulate "brief"); [rewrite render_store; now left |].
    destruct (tab_eq_bool tabulate true); [rewrite render_store; now left |].
    destruct (tab_eq_str tabulate "extend") eqn:Ext.
    { apply tab_eq_str_true in Ext. subst tabulate. right. left.
      split; [reflexivity |]. exists records. split; [reflexivity |].
      unfold extend, bind.
      destruct (foldM extend_record [] (map Shared records) s) as [s1 [t | e]];
        cbn [fst ret]; [now rewrite render_store | reflexivity]. }
    specialize (Hrest (TRecords (map Shared records))).
    destruct tabulate as [| | | l0 |]; try (now left).
    destruct (Hdict (TRecords (map Shared records)) l0) as [H | [H1 H2]]; [now left |].
    right. right. exists l0. auto.
Qed.

(** C3, as the code has it. A call leaves every object of the caller
    as it was, but for two updates in place: under ["extend"] a record
    of the list whose ["result"] is a list loses that key (and only
    that key), and a dictionary given as [tabulate] that has no
    ["headers"] gains that key, bound to the headers as resolved. *)
Theorem C3_inputs_change_only_by_pop_and_setdefault :
  forall (HAS_TABULATE : bool) (result : result_arg) (tabulate : tabulate_arg)
         (headers headers_exclude : value) (s : store) (l : loc),
    let s' := fst (TabulateFormatter HAS_TABULATE result tabulate
                                     headers headers_exclude s) in
    s' !!! l = s !!! l
    \/ (tabulate = TStr "extend"
        /\ (exists records, result = RList records /\ In l records)
        /\ (exists items, dict_get (s !!! l) "result" = Some (VList items))
        /\ s' !!! l = dict_del (s !!! l) "result"
        /\ forall k, k <> "result" -> dict_get (s' !!! l) k = dict_get (s !!! l) k)
    \/ (tabulate = TDict l
        /\ dict_mem (s !!! l) "headers" = false
        /\ s' !!! l = s !!! l ++ [("headers", normalize headers)]).
Proof.
  intros has result tabulate headers hx s l s'.
  destruct (TabulateFormatter_store has result tabulate headers hx s)
    as [H | [[Ht [records [Hr H]]] | [l0 [Ht [Hm H]]]]]; fold s' in H.
  - left. now rewrite H.
  - pose proof (extend_loop_store (map Shared records) [] s l) as Hl.
    cbv zeta in Hl. rewrite <- H in Hl.
    destruct Hl as [Hl | [H1 [H2 H3]]]; [now left |].
    right. left. repeat split; auto.
    + exists records. split; [assumption |].
      apply in_map_iff in H1 as [x [Hx Hin]]. now injection Hx as ->.
    + intros k Hk. rewrite H3, dict_get_del.
      destruct (String.eqb_spec "result" k); congruence.
  - destruct (Nat.eq_dec l0 l) as [-> | Hne].
    + right. right. repeat split; auto.
      rewrite H. apply lookup_total_insert_eq.
    + left. rewrite H. now apply lookup_total_insert_ne.
Qed.

(* ================================================================== *)
(** ** TabulateFormatter: the ["extend"] branch *)
(* ================================================================== *)

Lemma flat_map_ext_in {A B} (f g : A -> list B) l :
  (forall x, In x l -> f x = g x) -> flat_map f l = flat_map g l.
Proof.
  induction l as [| x l IH]; intros H; simpl; [reflexivity |].
  rewrite H by now left. rewrite IH; [reflexivity |].
  intros y Hy. apply H. now right.
Qed.

(** Over distinct records that all have a ["result"], the loop appends
    the elements of each record in turn. *)
Lemma extend_loop_run recs :
  forall acc (s : store),
    NoDup recs ->
    (forall l, In l recs -> dict_mem (s !!! l) "result" = true) ->
    snd (foldM extend_record acc (map Shared recs) s)
    = Ok (acc ++ flat_map (extend_elements s) recs).
Proof.
  induction recs as [| l0 recs IH]; intros acc s Hnd Hres; simpl.
  - now rewrite app_nil_r.
  - apply NoDup_cons in Hnd as [Hl0 Hnd].
    assert (Hl0' : ~ In l0 recs) by (intros H; apply Hl0; now apply list_elem_of_In).
    unfold bind. rewrite extend_record_shared.
    pose proof (Hres l0 (or_introl eq_refl)) as H0.
    rewrite dict_mem_get in H0. unfold extend_elements at 1.
    destruct (dict_get (s !!! l0) "result") as [v |]; [| discriminate].
    assert (Hsame : forall s1 : store,
               (forall l, l <> l0 -> s1 !!! l = s !!! l) ->
               snd (foldM extend_record
                          (acc ++ match v with
                                  | VList items =>
                                      map (fun i => Fresh (extend_item
                                                      (dict_del (s !!! l0) "result") i))
                                          items
                                  | _ => [Shared l0]
                                  end) (map Shared recs) s1)
               = Ok (acc ++ match v with
                            | VList items =>
                                map (fun i => Fresh (extend_item
                                                (dict_del (s !!! l0) "result") i))
                                    items
                            | _ => [Shared l0]
                            end ++ flat_map (extend_elements s) recs)).
    { intros s1 Hs1. rewrite IH; [| assumption |].
      - rewrite <- app_assoc. do 3 f_equal. apply flat_map_ext_in.
        intros l Hl. unfold extend_elements. rewrite Hs1; [reflexivity |].
        intros ->. contradiction.
      - intros l Hl. rewrite Hs1; [apply Hres; now right |].
        intros ->. contradiction. }
    destruct v as [| | | | items |]; try (apply Hsame; reflexivity).
    apply Hsame. intros l Hne. now apply lookup_total_insert_ne.
Qed.

(** The records left in place by the loop read after it as before. *)
Lemma extend_loop_content recs acc (s : store) :
  let s' := fst (foldM extend_record acc (map Shared recs) s) in
  map (content s') (flat_map (extend_elements s) recs)
  = flat_map (fun l => extend_rows (s !!! l)) recs.
Proof.
  intros s'.
  assert (H : forall l, map (content s') (extend_elements s l) = extend_rows (s !!! l)).
  { intros l. unfold extend_elements, extend_rows.
    pose proof (extend_loop_store (map Shared recs) acc s l) as Hst.
    cbv zeta in Hst. fold s' in Hst.
    destruct Hst as [Hl | [_ [[items Hi] _]]].
    - destruct (dict_get (s !!! l) "result") as [[| | | | items |] |]; simpl;
        try (now rewrite Hl).
      rewrite map_map. reflexivity.
    - rewrite Hi. rewrite map_map. reflexivity. }
  clearbody s'.
  induction recs as [| l recs IH]; simpl; [reflexivity |].
  now rewrite map_app, H, IH.
Qed.

Lemma extend_call recs (s : store) :
  NoDup recs ->
  (forall l, In l recs -> dict_mem (s !!! l) "result" = true) ->
  snd (TabulateFormatter true (RList recs) (TStr "extend")
                         default_headers default_headers_exclude s)
  = Ok (Tabulate
          (VList (map VDict (flat_map (fun l => extend_rows (s !!! l)) recs)))
          [("headers", VStr "keys")]).
Proof.
  intros Hnd Hres.
  unfold TabulateFormatter, default_headers, default_headers_exclude.
  cbn [negb tab_eq_str tab_eq_bool normalize has_char String.eqb Ascii.eqb
       Bool.eqb comma].
  unfold extend, bind.
  pose proof (extend_loop_run recs [] s Hnd Hres) as Hrun.
  pose proof (extend_loop_content recs [] s) as Hcont. cbv zeta in Hcont.
  destruct (foldM extend_record [] (map Shared recs) s) as [s1 [t | e]];
    simpl in Hrun, Hcont; [| discriminate].
  injection Hrun as ->.
  cbn [ret]. unfold render, bind. cbn [truthy ret dict_get String.eqb Ascii.eqb Bool.eqb].
  rewrite as_data_run. cbn [snd ret].
  now rewrite <- Hcont, map_map.
Qed.

Lemma dict_get_merge (d e : dict) k :
  NoDup (keys e) ->
  dict_get (dict_merge d e) k
  = match dict_get e k with
    | Some v => Some v
    | None => dict_get d k
    end.
Proof.
  unfold dict_merge. revert d.
  induction e as [| [k0 v0] e IH]; intros d Hnd; simpl; [reflexivity |].
  apply NoDup_cons in Hnd as [Hk0 Hnd].
  rewrite IH by assumption. rewrite dict_get_set.
  destruct (String.eqb_spec k k0) as [-> | Hne].
  - rewrite String.eqb_refl.
    assert (Hnone : dict_mem e k0 = false).
    { destruct (dict_mem e k0) eqn:E; [| reflexivity].
      exfalso. apply Hk0. apply list_elem_of_In. now apply dict_mem_In. }
    rewrite dict_mem_get in Hnone.
    now destruct (dict_get e k0).
  - destruct (String.eqb_spec k0 k); [congruence | reflexivity].
Qed.

(** What ["extend"] does when nothing stops it: with a list of distinct
    records that all have a ["result"], the table is made of the rows
    of each record in turn.  A record whose ["result"] is a list of [n]
    elements gives [n] rows and is not itself kept: the row of a mapping
    element reads as the element where the element has the key and as
    the record's other fields elsewhere; the row of any other element
    reads as the record with ["result"] replaced by the element.  A
    record whose ["result"] is no list gives one row, the record
    itself. *)
Theorem extend_rows_of_distinct_records :
  forall (s : store) (recs : list loc),
    NoDup recs ->
    (forall l, In l recs -> dict_mem (s !!! l) "result" = true) ->
    snd (TabulateFormatter true (RList recs) (TStr "extend")
                           default_headers default_headers_exclude s)
    = Ok (Tabulate
            (VList (map VDict (flat_map (fun l => extend_rows (s !!! l)) recs)))
            [("headers", VStr "keys")])
    /\ forall l, In l recs ->
         (forall items,
             dict_get (s !!! l) "result" = Some (VList items) ->
             length (extend_rows (s !!! l)) = length items
             /\ forall j i,
                 nth_error items j = Some i ->
                 exists row,
                   nth_error (extend_rows (s !!! l)) j = Some row
                   /\ (forall e, i = VDict e -> NoDup (keys e) ->
                         forall k,
                           dict_get row k
                           = match dict_get e k with
                             | Some v => Some v
                             | None => if String.eqb k "result" then None
                                       else dict_get (s !!! l) k
                             end)
                   /\ (is_dict i = false ->
                         forall k,
                           dict_get row k
                           = if String.eqb k "result" then Some i
                             else dict_get (s !!! l) k))
         /\ (forall v,
               dict_get (s !!! l) "result" = Some v -> is_list v = false ->
               extend_rows (s !!! l) = [s !!! l]).
Proof.
  intros s recs Hnd Hres. split; [now apply extend_call |].
  intros l Hl. split.
  - intros items Hitems. unfold extend_rows. rewrite Hitems. split.
    + apply length_map.
    + intros j i Hj.
      exists (extend_item (dict_del (s !!! l) "result") i). split.
      * now apply map_nth_error.
      * split.
        -- intros e -> He k. simpl. rewrite dict_get_merge by assumption.
           destruct (dict_get e k); [reflexivity |].
           rewrite dict_get_del.
           destruct (String.eqb_spec "result" k) as [<- | Hne]; [reflexivity |].
           destruct (String.eqb_spec k "result"); congruence.
        -- intros Hi k.
           assert (Hrow : extend_item (dict_del (s !!! l) "result") i
                          = dict_set (dict_del (s !!! l) "result") "result" i)
             by now destruct i.
           rewrite Hrow, dict_get_set.
           destruct (String.eqb_spec "result" k) as [<- | Hne]; [reflexivity |].
           rewrite dict_get_del.
           destruct (String.eqb_spec k "result") as [-> | _]; [congruence |].
           destruct (String.eqb_spec "result" k); congruence.
  - intros v Hv Hnl. unfold extend_rows. rewrite Hv. now destruct v.
Qed.

(* ================================================================== *)
(** ** TabulateFormatter: exclusion and rows *)
(* ================================================================== *)

Lemma contains_iterable hx k :
  iterable hx = true -> truthy hx = true -> contains hx k = Ok (excludes hx k).
Proof.
  unfold excludes. intros Hi Ht. rewrite Ht.
  destruct hx; try discriminate; reflexivity.
Qed.

Lemma excludes_falsy hx k : truthy hx = false -> excludes hx k = false.
Proof. unfold excludes. now intros ->. Qed.

Lemma exclude_record_iterable hx d :
  iterable hx = true -> truthy hx = true ->
  exclude_record hx d = Ok (without hx d).
Proof.
  intros Hi Ht. induction d as [| [k v] d IH]; [reflexivity |].
  cbn [exclude_record]. rewrite contains_iterable, IH by assumption. simpl.
  now destruct (excludes hx k).
Qed.

Lemma dict_get_without hx d h :
  dict_get (without hx d) h = if excludes hx h then None else dict_get d h.
Proof.
  induction d as [| [k v] d IH]; simpl.
  - now destruct (excludes hx h).
  - destruct (excludes hx k) eqn:Ek; simpl.
    + rewrite IH. destruct (String.eqb_spec h k) as [-> | Hne]; [| reflexivity].
      now rewrite Ek.
    + rewrite IH. destruct (String.eqb_spec h k) as [-> | Hne]; [| reflexivity].
      now rewrite Ek.
Qed.

Lemma cells_names d hs :
  map_exc (cell d) (map VStr hs)
  = Ok (map (fun h => dict_get_default d h (VStr "")) hs).
Proof.
  induction hs as [| h hs IH]; simpl; [reflexivity |]. now rewrite IH.
Qed.

Lemma row_cells_without hs hx d :
  map (fun h => dict_get_default (without hx d) h (VStr "")) hs = row_cells hs hx d.
Proof.
  unfold row_cells. apply map_ext. intros h.
  unfold dict_get_default. rewrite dict_get_without.
  now destruct (excludes hx h).
Qed.

Lemma row_cells_falsy hs hx d :
  truthy hx = false ->
  map (fun h => dict_get_default d h (VStr "")) hs = row_cells hs hx d.
Proof.
  intros Ht. unfold row_cells. apply map_ext. intros h.
  now rewrite excludes_falsy.
Qed.

(** A name of a list of names is excluded. *)
Lemma excludes_named names h :
  In h names -> excludes (VList (map VStr names)) h = true.
Proof.
  intros Hin. unfold excludes.
  destruct names as [| n names]; [destruct Hin |].
  cbn [truthy map andb contains]. apply existsb_exists.
  exists (VStr h). split; [| apply String.eqb_refl].
  change (VStr n :: map VStr names) with (map VStr (n :: names)).
  now apply in_map.
Qed.

(** Lines 141-155 when the headers are a list of names. *)
Lemma render_names rs kwargs hs hx (s : store) :
  dict_get kwargs "headers" = Some (VList (map VStr hs)) ->
  iterable hx = true \/ truthy hx = false ->
  render (TRecords rs) kwargs hx s
  = (s, Ok (Tabulate
              (VList (map (fun r => VList (row_cells hs hx (content s r))) rs))
              kwargs)).
Proof.
  intros Hh Hx. unfold render, bind.
  assert (Hrows : forall rs' (g : record -> dict),
             (forall r, In r rs' -> content s r = g r) ->
             (let (s', x) := rows (map VStr hs) (TRecords rs') s in
              match x with
              | Ok a => ret (Tabulate (VList a) kwargs) s'
              | Raise e => (s', Raise e)
              end)
             = (s, Ok (Tabulate
                         (VList (map (fun r => VList (map (fun h =>
                                   dict_get_default (g r) h (VStr "")) hs)) rs'))
                         kwargs))).
  { intros rs' g Hg. rewrite rows_run.
    rewrite (map_exc_ok _ (fun r => VList (map (fun h =>
                             dict_get_default (g r) h (VStr "")) hs))); [reflexivity |].
    intros r Hr. now rewrite cells_names, Hg. }
  destruct (truthy hx) eqn:Ht.
  - destruct Hx as [Hi | Hf]; [| discriminate].
    rewrite exclude_run.
    rewrite (map_exc_ok _ (fun r => without hx (content s r)))
      by (intros; now apply exclude_record_iterable).
    rewrite Hh, map_map.
    rewrite (Hrows _ (fun r => match r with Fresh d => d | Shared l => s !!! l end))
      by (intros []; reflexivity).
    rewrite map_map. do 4 f_equal.
    apply map_ext. intros r. f_equal. apply row_cells_without.
  - cbn [ret]. rewrite Hh, (Hrows rs (content s)) by reflexivity.
    do 4 f_equal. apply map_ext. intros r. f_equal. now apply row_cells_falsy.
Qed.

(** C10. With headers that resolve to a list of names, excluding a
    field does not take its column away.  Whatever the branch, lines
    141-155 give every record a row with one cell per header, in the
    order of the headers; so do the calls with [tabulate=True] and with
    ["brief"].  The cell of a header that is excluded is the empty
    string, as is the cell of a header the record lacks; any other cell
    is the record's field.  A name in a list of excluded names is
    excluded. *)
Theorem C10_excluded_header_keeps_its_column :
  forall (s : store) (recs : list loc) (headers headers_exclude : value)
         (hs : list string),
    normalize headers = VList (map VStr hs) ->
    iterable (normalize headers_exclude) = true
    \/ truthy (normalize headers_exclude) = false ->
    let hx := normalize headers_exclude in
    (forall rs kwargs,
        dict_get kwargs "headers" = Some (VList (map VStr hs)) ->
        render (TRecords rs) kwargs hx s
        = (s, Ok (Tabulate
                    (VList (map (fun r => VList (row_cells hs hx (content s r))) rs))
                    kwargs)))
    /\ TabulateFormatter true (RList recs) (TBool true) headers headers_exclude s
       = (s, Ok (Tabulate
                   (VList (map (fun l => VList (row_cells hs hx (s !!! l))) recs))
                   [("headers", VList (map VStr hs))]))
    /\ TabulateFormatter true (RList recs) (TStr "brief") headers headers_exclude s
       = (s, Ok (Tabulate
                   (VList (map (fun l => VList (row_cells
                                  ["host"; "name"; "result"; "exception"] hx (s !!! l)))
                               recs))
                   brief))
    /\ (forall (columns : list string) (d : dict),
         length (row_cells columns hx d) = length columns
         /\ forall j h,
             nth_error columns j = Some h ->
             (excludes hx h = true ->
              nth_error (row_cells columns hx d) j = Some (VStr ""))
             /\ (excludes hx h = false ->
                 nth_error (row_cells columns hx d) j
                 = Some (match dict_get d h with
                         | Some v => v
                         | None => VStr ""
                         end)))
    /\ (forall names h,
          hx = VList (map VStr names) -> In h names -> excludes hx h = true).
Proof.
  intros s recs headers headers_exclude hs Hh Hx hx. fold hx in Hx.
  split; [| split; [| split; [| split]]].
  - intros rs kwargs Hk. now apply render_names.
  - unfold TabulateFormatter. cbn [negb tab_eq_str tab_eq_bool Bool.eqb].
    fold hx. rewrite Hh, (render_names _ _ hs) by (reflexivity || assumption).
    now rewrite map_map.
  - unfold TabulateFormatter. cbn [negb tab_eq_str String.eqb Ascii.eqb Bool.eqb].
    fold hx.
    rewrite (render_names _ _ ["host"; "name"; "result"; "exception"])
      by (reflexivity || assumption).
    now rewrite map_map.
  - intros columns d. split; [apply length_map |].
    intros j h Hj. unfold row_cells. split; intros He;
      erewrite map_nth_error by eassumption; now rewrite He.
  - intros names h -> Hin. now apply excludes_named.
Qed.

(* ================================================================== *)
(** ** The code on sample inputs *)
(* ================================================================== *)

(** C1. Given an [AggregatedResult], the function calls the serializer
    with [add_details=True, to_dict=False] and goes on with what it
    returns, a dictionary from host name to that host's records: the
    lists are not joined and no record gets a ["host"] field.  With the
    default arguments that dictionary is what reaches [tabulate]; under
    ["brief"] the rows are asked of the host names and the call raises. *)
Theorem C1_aggregated_result_is_not_flattened :
  TabulateFormatter true (RAggregated [("R1", [Sample.show_clock])])
                    default_tabulate default_headers default_headers_exclude ∅
  = (∅, Ok (Tabulate
              (VDict [("R1", VList [VDict [("name", VStr "show clock");
                                           ("diff", VStr "");
                                           ("changed", VBool false);
                                           ("result", VStr "12:00");
                                           ("failed", VBool false);
                                           ("exception", VStr "None")]])])
              [("headers", VStr "keys")]))
  /\ TabulateFormatter true (RAggregated [("R1", [Sample.show_clock])])
                       (TStr "brief") default_headers default_headers_exclude ∅
     = (∅, Raise AttributeError).
Proof. split; vm_compute; reflexivity. Qed.

(** Whatever the collection, with the default arguments the first
    argument of [tabulate] is the serializer's dictionary. *)
Lemma aggregated_result_passed_as_mapping (nr : AggregatedResult) (s : store) :
  TabulateFormatter true (RAggregated nr)
                    default_tabulate default_headers default_headers_exclude s
  = (s, Ok (Tabulate (VDict (ResultSerializer nr true false))
                     [("headers", VStr "keys")])).
Proof. reflexivity. Qed.

(** C2. Under ["extend"] a record without ["result"], such as the one
    the serializer makes for a host exception, raises [KeyError]; and an
    [AggregatedResult] with a host raises [TypeError]. *)
Theorem C2_extend_raises :
  TabulateFormatter true (RList [2]) (TStr "extend")
                    default_headers default_headers_exclude Sample.objects
  = (Sample.objects, Raise KeyError)
  /\ ResultSerializer [("R1", [Sample.lost])] true false
     = [("R1", VList [VDict [("name", VStr "show version");
                             ("exception", VStr "connection lost")]])]
  /\ TabulateFormatter true (RAggregated [("R1", [Sample.lost])]) (TStr "extend")
                       default_headers default_headers_exclude ∅
     = (∅, Raise TypeError).
Proof. repeat split; vm_compute; reflexivity. Qed.

(** C3 fails as stated: after a call under ["extend"] the caller's
    record has lost its ["result"], and after a call with a dictionary
    as [tabulate] that dictionary has a ["headers"] key. *)
Lemma C3_counterexample :
  (dict_mem (Sample.objects !!! 0) "result" = true
   /\ dict_mem
        (fst (TabulateFormatter true (RList [0]) (TStr "extend")
                default_headers default_headers_exclude Sample.objects) !!! 0)
        "result" = false)
  /\ (dict_mem (Sample.objects !!! 3) "headers" = false
      /\ dict_mem
           (fst (TabulateFormatter true (RList [1]) (TDict 3)
                   default_headers default_headers_exclude Sample.objects) !!! 3)
           "headers" = true).
Proof. repeat split; vm_compute; reflexivity. Qed.

(** C4 fails as stated: with two kept tasks of one name on a host, the
    list shape holds a triple the dictionary shape does not hold. *)
Lemma C4_counterexample :
  ~ (forall t,
        In t (triples (ResultSerializer Sample.repeated false true))
        <-> In t (triples (ResultSerializer Sample.repeated false false))).
Proof.
  intros H.
  destruct (H ("R1", "show clock", VStr "12:00")) as [_ H2].
  assert (Hin : In ("R1", "show clock", VStr "12:00")
                   (triples (ResultSerializer Sample.repeated false false)))
    by (vm_compute; now left).
  apply H2 in Hin. vm_compute in Hin.
  destruct Hin as [Heq | []]. discriminate Heq.
Qed.

(** C5. A string without a comma stays a string, and [k in
    headers_exclude] then asks whether [k] occurs in it: excluding
    ["hostname"] also removes the field ["host"]. *)
Theorem C5_single_name_excludes_substrings :
  Sample.objects !!! 1
  = [("host", VStr "R1"); ("hostname", VStr "r1.lab"); ("result", VStr "ok")]
  /\ TabulateFormatter true (RList [1]) default_tabulate
                       default_headers (VStr "hostname") Sample.objects
     = (Sample.objects,
        Ok (Tabulate (VList [VDict [("result", VStr "ok")]])
                     [("headers", VStr "keys")])).
Proof. split; vm_compute; reflexivity. Qed.

(** C9. Under ["extend"] a record without ["result"] does not give one
    row: the call raises [KeyError] when the loop comes to it, and then
    no record of the list gives a row.  A record with a list of two
    elements gives no rows when such a record stands after it (it has
    lost its list by then) or before it. *)
Theorem C9_extend_gives_no_rows_on_missing_result :
  TabulateFormatter true (RList [2]) (TStr "extend")
                    default_headers default_headers_exclude Sample.objects
  = (Sample.objects, Raise KeyError)
  /\ TabulateFormatter true (RList [2; 0]) (TStr "extend")
                       default_headers default_headers_exclude Sample.objects
     = (Sample.objects, Raise KeyError)
  /\ snd (TabulateFormatter true (RList [0; 2]) (TStr "extend")
                            default_headers default_headers_exclude Sample.objects)
     = Raise KeyError
  /\ fst (TabulateFormatter true (RList [0; 2]) (TStr "extend")
                            default_headers default_headers_exclude Sample.objects)
     !!! 0
     = [("host", VStr "R1"); ("name", VStr "show interfaces")].
Proof. repeat split; vm_compute; reflexivity. Qed.

(** What holds of the exclusion: a list of names, or a string with a
    comma, removes the fields so named and no other, and doing it twice
    changes nothing more. *)
Lemma normalize_comma_string s :
  has_char comma s = true ->
  normalize (VStr s) = VList (map VStr (map strip (split comma s))).
Proof. intros H. unfold normalize, split_names. now rewrite H, map_map. Qed.

Lemma without_In hx d k v :
  In (k, v) (without hx d) <-> In (k, v) d /\ excludes hx k = false.
Proof.
  unfold without. rewrite filter_In. simpl. now rewrite negb_true_iff.
Qed.

Lemma without_idempotent hx d : without hx (without hx d) = without hx d.
Proof.
  unfold without. induction d as [| [k v] d IH]; simpl; [reflexivity |].
  destruct (excludes hx k) eqn:E; simpl; [assumption |].
  now rewrite E, IH.
Qed.

Lemma excludes_names names k :
  excludes (VList (map VStr names)) k = true <-> In k names.
Proof.
  split; [| apply excludes_named].
  unfold excludes. rewrite andb_true_iff. intros [_ H].
  cbn [contains] in H. apply existsb_exists in H as [x [Hx E]].
  apply in_map_iff in Hx as [n [<- Hn]].
  apply String.eqb_eq in E. now subst.
Qed.

(** With headers left to [tabulate] (["keys"]), the records reach it
    without the excluded fields. *)
Lemma render_excluded_records rs kwargs sentinel hx (s : store) :
  dict_get kwargs "headers" = Some (VStr sentinel) ->
  iterable hx = true -> truthy hx = true ->
  render (TRecords rs) kwargs hx s
  = (s, Ok (Tabulate (VList (map (fun r => VDict (without hx (content s r))) rs))
                     kwargs)).
Proof.
  intros Hh Hi Ht. unfold render, bind. rewrite Ht, exclude_run.
  rewrite (map_exc_ok _ (fun r => without hx (content s r)))
    by (intros; now apply exclude_record_iterable).
  rewrite Hh, as_data_run. cbn [ret]. now rewrite !map_map.
Qed.

(* ================================================================== *)
(** ** The theorems at sample inputs *)
(* ================================================================== *)

Ltac distinct :=
  match goal with
  | |- ?P => refine (@bool_decide_unpack P _ _); vm_compute; exact I
  end.

Ltac not_a_skip_task :=
  let H := fresh in intros [H | []]; discriminate H.

(** The store theorem at the sample objects, under ["extend"]. *)
Lemma C3_witness :
  let s' := fst (TabulateFormatter true (RList [0; 1]) (TStr "extend")
                   default_headers default_headers_exclude Sample.objects) in
  s' !!! 0 = Sample.objects !!! 0
  \/ (TStr "extend" = TStr "extend"
      /\ (exists records, RList [0; 1] = RList records /\ In 0 records)
      /\ (exists items,
             dict_get (Sample.objects !!! 0) "result" = Some (VList items))
      /\ s' !!! 0 = dict_del (Sample.objects !!! 0) "result"
      /\ forall k, k <> "result" ->
                   dict_get (s' !!! 0) k = dict_get (Sample.objects !!! 0) k)
  \/ (TStr "extend" = TDict 0
      /\ dict_mem (Sample.objects !!! 0) "headers" = false
      /\ s' !!! 0 = Sample.objects !!! 0 ++ [("headers", normalize default_headers)]).
Proof.
  exact (C3_inputs_change_only_by_pop_and_setdefault
           true (RList [0; 1]) (TStr "extend")
           default_headers default_headers_exclude Sample.objects 0).
Defined.

(** The tasks of the sample run have distinct names. *)
Lemma C4_witness :
  (forall h ts, In (h, ts) Sample.run -> NoDup (map Result.name (kept ts)))
  /\ triples (ResultSerializer Sample.run false true)
     = triples (ResultSerializer Sample.run false false).
Proof.
  assert (H : forall h ts, In (h, ts) Sample.run ->
                           NoDup (map Result.name (kept ts))).
  { intros h ts [E | []]. injection E as <- <-. distinct. }
  split; [exact H |].
  exact (proj2 (C4_shapes_hold_same_triples Sample.run) H).
Defined.

(** The task met while the host carries an exception. *)
Lemma C6_witness :
  exists before after,
    dict_get (ResultSerializer Sample.run false false) "R1"
    = Some (VList (before
                   ++ VDict [("name", VStr "show version");
                             ("exception", VStr "connection lost")]
                   :: after))
    /\ length before = 1.
Proof.
  assert (Hnd : NoDup (map fst Sample.run)) by (simpl; distinct).
  assert (Hin : In ("R1", [Sample.gather_facts; Sample.show_clock]
                          ++ Sample.lost :: [Sample.broken]) Sample.run)
    by (left; reflexivity).
  assert (Hs : ~ In (Result.name Sample.lost) skip_tasks) by not_a_skip_task.
  exact (proj1 (proj2 (proj2
           (C6_host_exception_record
              Sample.run "R1" [Sample.gather_facts; Sample.show_clock]
              Sample.lost [Sample.broken] (VStr "connection lost") false
              Hnd Hin eq_refl Hs eq_refl eq_refl)))).
Defined.

(** The task that raised. *)
Lemma C7_witness :
  exists before r after,
    dict_get (ResultSerializer Sample.run true false) "R1"
    = Some (VList (before ++ VDict r :: after))
    /\ length before = 2
    /\ dict_get r "name" = Some (VStr "show run")
    /\ dict_get r "failed" = Some (VBool true)
    /\ dict_get r "exception" = Some (VStr "timeout").
Proof.
  assert (Hnd : NoDup (map fst Sample.run)) by (simpl; distinct).
  assert (Hin : In ("R1", [Sample.gather_facts; Sample.show_clock; Sample.lost]
                          ++ Sample.broken :: []) Sample.run)
    by (left; reflexivity).
  assert (Hs : ~ In (Result.name Sample.broken) skip_tasks) by not_a_skip_task.
  exact (proj1
           (C7_details_failed_and_exception
              Sample.run "R1" [Sample.gather_facts; Sample.show_clock; Sample.lost]
              Sample.broken [] Hnd Hin eq_refl Hs eq_refl)).
Defined.

(** The task whose name begins with an underscore. *)
Lemma C8_witness :
  ~ In "_gather_facts" (task_names (ResultSerializer Sample.run true false))
  /\ ResultSerializer Sample.run true false
     = ResultSerializer
         [("R1", [Sample.show_clock; Sample.lost; Sample.broken])] true false.
Proof.
  destruct (C8_skipped_tasks_contribute_nothing Sample.run true false) as [H1 H2].
  split.
  - apply H1. left. reflexivity.
  - apply (H2 [] "R1" [] Sample.gather_facts
              [Sample.show_clock; Sample.lost; Sample.broken] []).
    + reflexivity.
    + left. reflexivity.
Defined.

(** A record with a list of two elements and a record with a string. *)
Lemma extend_rows_of_distinct_records_witness :
  snd (TabulateFormatter true (RList [0; 1]) (TStr "extend")
                         default_headers default_headers_exclude Sample.objects)
  = Ok (Tabulate
          (VList [VDict [("host", VStr "R1"); ("name", VStr "show interfaces");
                         ("interface", VStr "eth0"); ("mtu", VInt 1500)];
                  VDict [("host", VStr "R1"); ("name", VStr "show interfaces");
                         ("result", VStr "eth1 is down")];
                  VDict [("host", VStr "R1"); ("hostname", VStr "r1.lab");
                         ("result", VStr "ok")]])
          [("headers", VStr "keys")]).
Proof.
  assert (Hnd : NoDup [0; 1]) by distinct.
  assert (Hres : forall l, In l [0; 1] ->
                           dict_mem (Sample.objects !!! l) "result" = true).
  { intros l [<- | [<- | []]]; reflexivity. }
  exact (proj1 (extend_rows_of_distinct_records Sample.objects [0; 1] Hnd Hres)).
Defined.

(** Headers and exclusions given as comma-separated strings. *)
Lemma C10_witness :
  TabulateFormatter true (RList [1; 2]) (TBool true)
                    (VStr "host, result, name") (VStr "result,diff") Sample.objects
  = (Sample.objects,
     Ok (Tabulate
           (VList [VList [VStr "R1"; VStr ""; VStr ""];
                   VList [VStr ""; VStr ""; VStr "show version"]])
           [("headers", VList [VStr "host"; VStr "result"; VStr "name"])])).
Proof.
  exact (proj1 (proj2 (C10_excluded_header_keeps_its_column
                  Sample.objects [1; 2]
                  (VStr "host, result, name") (VStr "result,diff")
                  ["host"; "result"; "name"]
                  eq_refl (or_introl eq_refl)))).
Defined.

(* ================================================================== *)
(** ** ResultSerializer: hosts, order and shapes *)
(* ================================================================== *)

Lemma host_loop_keys (f : list Result.t -> value) c ret :
  NoDup (keys ret ++ map fst c) ->
  keys (fold_left (fun r item => dict_set r (fst item) (f (snd item))) c ret)
  = keys ret ++ map fst c.
Proof.
  revert ret. induction c as [| [h ts] c IH]; intros ret Hnd; simpl.
  - now rewrite app_nil_r.
  - assert (Hfresh : dict_mem ret h = false).
    { destruct (dict_mem ret h) eqn:E; [| reflexivity].
      apply dict_mem_In in E. apply NoDup_app in Hnd as [_ [Hd _]].
      exfalso. apply (Hd h); [now apply list_elem_of_In |]. simpl. left. }
    rewrite IH.
    + rewrite keys_dict_set, Hfresh. now rewrite <- app_assoc.
    + rewrite keys_dict_set, Hfresh. now rewrite <- app_assoc.
Qed.

Lemma host_loop_In (f : list Result.t -> value) c ret h v :
  In (h, v) (fold_left (fun r item => dict_set r (fst item) (f (snd item))) c ret) ->
  In (h, v) ret \/ exists ts, In (h, ts) c /\ v = f ts.
Proof.
  revert ret. induction c as [| [h' ts'] c IH]; intros ret; simpl; [tauto |].
  intros H. apply IH in H as [H | [ts [Hin ->]]].
  - apply dict_set_In in H as [H | H]; [| tauto].
    injection H as -> ->. right. exists ts'. tauto.
  - right. exists ts. tauto.
Qed.

(** Every entry of the output is the container of some host of the
    collection. *)
Lemma serializer_entry c ad td h v :
  In (h, v) (ResultSerializer c ad td) ->
  exists ts,
    In (h, ts) c
    /\ v = if td
           then VDict (fold_left (fun d i => dict_set d (Result.name i) (leaf ad i))
                                 (kept ts) [])
           else VList (map (flat_record ad) (kept ts)).
Proof.
  unfold ResultSerializer. destruct td; intros H.
  - apply (host_loop_In (fun ts => VDict (fold_left (dict_task ad) ts []))) in H
      as [[] | [ts [Hin ->]]].
    exists ts. now rewrite dict_loop.
  - apply (host_loop_In (fun ts => VList (fold_left (list_task ad) ts []))) in H
      as [[] | [ts [Hin ->]]].
    exists ts. now rewrite list_loop.
Qed.

(** X1. The output has one entry per host, in the order of the
    collection, also for a host none of whose tasks is kept; the entry
    is a dictionary under [to_dict] and a list otherwise. *)
Theorem serializer_keeps_hosts :
  forall (c : AggregatedResult) (add_details to_dict : bool),
    NoDup (map fst c) ->
    keys (ResultSerializer c add_details to_dict) = map fst c
    /\ forall h v,
         In (h, v) (ResultSerializer c add_details to_dict) ->
         (if to_dict then is_dict v else is_list v) = true.
Proof.
  intros c ad td Hnd. split.
  - unfold ResultSerializer.
    destruct td;
      [apply (host_loop_keys (fun ts => VDict (fold_left (dict_task ad) ts [])) c [])
      |apply (host_loop_keys (fun ts => VList (fold_left (list_task ad) ts [])) c [])];
      exact Hnd.
  - intros h v H. apply serializer_entry in H as [ts [_ ->]]. now destruct td.
Qed.

Lemma kept_length ts :
  length (kept ts) + length (List.filter (fun i => skipped (Result.name i)) ts)
  = length ts.
Proof.
  unfold kept. induction ts as [| i ts IH]; simpl; [reflexivity |].
  destruct (skipped (Result.name i)); simpl; lia.
Qed.

Lemma names_flat_records ad ks :
  flat_map record_name (map (flat_record ad) ks) = map Result.name ks.
Proof.
  induction ks as [| i ks IH]; simpl; [reflexivity |].
  now rewrite record_name_flat_record, IH.
Qed.

(** X2. In the list shape a host's list has one record per task that
    is not skipped, so as many records as tasks less the skipped ones,
    and the records carry the names of those tasks in the order of the
    tasks. *)
Theorem serializer_list_counts_and_order :
  forall (c : AggregatedResult) (add_details : bool) h ts,
    NoDup (map fst c) ->
    In (h, ts) c ->
    exists recs,
      dict_get (ResultSerializer c add_details false) h = Some (VList recs)
      /\ length recs
         + length (List.filter
                     (fun i => String.prefix "_" (Result.name i)
                               || str_in (Result.name i) skip_tasks) ts)
         = length ts
      /\ flat_map record_name recs
         = map Result.name
               (List.filter
                  (fun i => negb (String.prefix "_" (Result.name i)
                                  || str_in (Result.name i) skip_tasks)) ts).
Proof.
  intros c ad h ts Hnd Hin.
  exists (map (flat_record ad) (kept ts)). split; [| split].
  - now apply serializer_list_get.
  - rewrite length_map. apply kept_length.
  - apply names_flat_records.
Qed.

Lemma find_snoc {A} (p : A -> bool) l x :
  List.find p (l ++ [x])
  = match List.find p l with
    | Some y => Some y
    | None => if p x then Some x else None
    end.
Proof.
  induction l as [| y l IH]; simpl; [reflexivity |].
  now destruct (p y).
Qed.

Lemma dict_loop_get ad ks acc n :
  dict_get (fold_left (fun d i => dict_set d (Result.name i) (leaf ad i)) ks acc) n
  = match List.find (fun i => String.eqb (Result.name i) n) (rev ks) with
    | Some i => Some (leaf ad i)
    | None => dict_get acc n
    end.
Proof.
  revert acc. induction ks as [| j ks IH]; intros acc; simpl; [reflexivity |].
  rewrite IH, find_snoc.
  destruct (List.find _ (rev ks)); [reflexivity |].
  rewrite dict_get_set. now destruct (String.eqb (Result.name j) n).
Qed.

Lemma dict_loop_NoDup ad ks acc :
  NoDup (keys acc) ->
  NoDup (keys (fold_left (fun d i => dict_set d (Result.name i) (leaf ad i)) ks acc)).
Proof.
  revert acc. induction ks as [| j ks IH]; intros acc H; simpl; [assumption |].
  apply IH. now apply NoDup_keys_set.
Qed.

(** X3. In the dictionary shape a host's dictionary has each name
    once, and the entry of a name is the value of the last task of that
    name that is not skipped: an earlier task of the same name leaves no
    trace, and a name no kept task has is no key. *)
Theorem serializer_dict_last_wins :
  forall (c : AggregatedResult) (add_details : bool) h ts,
    NoDup (map fst c) ->
    In (h, ts) c ->
    exists inner,
      dict_get (ResultSerializer c add_details true) h = Some (VDict inner)
      /\ NoDup (keys inner)
      /\ forall n,
           dict_get inner n
           = match last_kept n ts with
             | Some i => Some (leaf add_details i)
             | None => None
             end.
Proof.
  intros c ad h ts Hnd Hin.
  exists (fold_left (fun d i => dict_set d (Result.name i) (leaf ad i)) (kept ts) []).
  split; [| split].
  - now apply serializer_dict_get.
  - apply dict_loop_NoDup. constructor.
  - intros n. rewrite dict_loop_get. unfold last_kept.
    now destruct (List.find _ (rev (kept ts))).
Qed.

Lemma keys_flat_record ad i :
  exists d,
    flat_record ad i = VDict d
    /\ (keys d = "name" :: exception_fields
        \/ keys d = if ad then "name" :: detail_fields else ["name"; "result"]).
Proof.
  unfold flat_record. destruct (truthy (host_exception i)).
  - eexists. split; [reflexivity |]. now left.
  - destruct ad; eexists; (split; [reflexivity |]); now right.
Qed.

(** X4. Every record of the list shape is a dictionary of one of two
    forms: name and exception, or, by [add_details], name with the five
    detail fields or name with result.  Under [add_details] every entry
    of the dictionary shape is a dictionary with the exception alone or
    with the five detail fields. *)
Theorem serializer_record_shapes :
  forall (c : AggregatedResult) (add_details : bool),
    (forall h recs r,
        In (h, VList recs) (ResultSerializer c add_details false) ->
        In r recs ->
        exists d,
          r = VDict d
          /\ (keys d = ["name"; "exception"]
              \/ keys d = if add_details
                          then ["name"; "diff"; "changed"; "result"; "failed";
                                "exception"]
                          else ["name"; "result"]))
    /\ (forall h inner n v,
          In (h, VDict inner) (ResultSerializer c true true) ->
          In (n, v) inner ->
          exists d,
            v = VDict d
            /\ (keys d = ["exception"]
                \/ keys d = ["diff"; "changed"; "result"; "failed"; "exception"])).
Proof.
  intros c ad. split.
  - intros h recs r H Hr.
    apply serializer_entry in H as [ts [_ E]]. injection E as ->.
    apply in_map_iff in Hr as [i [<- _]]. apply keys_flat_record.
  - intros h inner n v H Hv.
    apply serializer_entry in H as [ts [_ E]]. injection E as ->.
    apply dict_loop_In in Hv as [[] | [i [_ [_ ->]]]].
    unfold leaf. destruct (truthy (host_exception i)); eexists;
      (split; [reflexivity |]); [now left | now right].
Qed.

Lemma dict_mem_keys (d e : dict) k : keys d = keys e -> dict_mem d k = dict_mem e k.
Proof.
  intros H. destruct (dict_mem d k) eqn:Ed, (dict_mem e k) eqn:Ee; try reflexivity.
  - apply dict_mem_In in Ed. rewrite H in Ed. apply dict_mem_In in Ed. congruence.
  - apply dict_mem_In in Ee. rewrite <- H in Ee. apply dict_mem_In in Ee. congruence.
Qed.

Lemma dict_loop_keys ad ad' ks acc acc' :
  keys acc = keys acc' ->
  keys (fold_left (fun d i => dict_set d (Result.name i) (leaf ad i)) ks acc)
  = keys (fold_left (fun d i => dict_set d (Result.name i) (leaf ad' i)) ks acc').
Proof.
  revert acc acc'. induction ks as [| j ks IH]; intros acc acc' H; simpl;
    [assumption |].
  apply IH. rewrite !keys_dict_set, (dict_mem_keys acc acc') by assumption.
  now rewrite H.
Qed.

Lemma host_loop_names (f g : list Result.t -> value) c d e :
  (forall ts, names_of (f ts) = names_of (g ts)) ->
  Forall2 (fun a b => fst a = fst b /\ names_of (snd a) = names_of (snd b)) d e ->
  Forall2 (fun a b => fst a = fst b /\ names_of (snd a) = names_of (snd b))
    (fold_left (fun r item => dict_set r (fst item) (f (snd item))) c d)
    (fold_left (fun r item => dict_set r (fst item) (g (snd item))) c e).
Proof.
  intros Hfg. revert d e. induction c as [| [h ts] c IH]; intros d e Hde; simpl;
    [assumption |].
  apply IH. clear IH.
  induction Hde as [| [k1 v1] [k2 v2] d e [Hk Hn] Hde IH]; simpl.
  - constructor; [split; [reflexivity | apply Hfg] | constructor].
  - simpl in Hk. subst k2. destruct (String.eqb h k1).
    + constructor; [split; [reflexivity | apply Hfg] | assumption].
    + constructor; [split; [reflexivity | exact Hn] | exact IH].
Qed.

(** X5. [add_details] changes what a record holds, not which records
    there are: in either shape the output with details and the output
    without carry the same task names, host by host and in the same
    order. *)
Theorem serializer_details_keep_names :
  forall (c : AggregatedResult) (to_dict : bool),
    keys (ResultSerializer c true to_dict) = keys (ResultSerializer c false to_dict)
    /\ task_names (ResultSerializer c true to_dict)
       = task_names (ResultSerializer c false to_dict).
Proof.
  intros c td.
  assert (H : Forall2 (fun a b => fst a = fst b
                                  /\ names_of (snd a) = names_of (snd b))
                      (ResultSerializer c true td) (ResultSerializer c false td)).
  { unfold ResultSerializer, dict_host, list_host. destruct td.
    - apply (host_loop_names
               (fun ts => VDict (fold_left (dict_task true) ts []))
               (fun ts => VDict (fold_left (dict_task false) ts []))); [| constructor].
      intros ts. rewrite !dict_loop. simpl. now apply dict_loop_keys.
    - apply (host_loop_names
               (fun ts => VList (fold_left (list_task true) ts []))
               (fun ts => VList (fold_left (list_task false) ts []))); [| constructor].
      intros ts. rewrite !list_loop. simpl. now rewrite !names_flat_records. }
  split.
  - unfold keys. induction H as [| a b d e [Hk _] _ IH]; simpl; congruence.
  - unfold task_names. induction H as [| a b d e [_ Hn] _ IH]; simpl; congruence.
Qed.

(** X6. Without [add_details], a task that is not skipped and whose
    host carries no exception, or an empty one, gives the record
    [{"name": n, "result": r}] in the list shape and the bare result
    under its name in the dictionary shape (there, unless a later kept
    task of that host has the same name). *)
Theorem serializer_plain_record :
  forall (c : AggregatedResult) h ts1 i ts2,
    NoDup (map fst c) ->
    In (h, ts1 ++ i :: ts2) c ->
    String.prefix "_" (Result.name i) = false ->
    ~ In (Result.name i) skip_tasks ->
    truthy (dict_get_default (Result.host i) "exception" VNone) = false ->
    (exists before after,
        dict_get (ResultSerializer c false false) h
        = Some (VList (before
                       ++ VDict [("name", VStr (Result.name i));
                                 ("result", Result.result i)]
                       :: after))
        /\ length before = length (kept ts1))
    /\ ((forall j, In j ts2 -> skipped (Result.name j) = false ->
                   Result.name j <> Result.name i) ->
        exists inner,
          dict_get (ResultSerializer c false true) h = Some (VDict inner)
          /\ dict_get inner (Result.name i) = Some (Result.result i)).
Proof.
  intros c h ts1 i ts2 Hnd Hin Hp Hs Hf.
  pose proof (skipped_false _ Hp Hs) as Hk.
  fold (host_exception i) in Hf. split.
  - exists (map (flat_record false) (kept ts1)), (map (flat_record false) (kept ts2)).
    split; [| apply length_map].
    rewrite (list_shape_at false c h ts1 i ts2 Hnd Hin Hk).
    unfold flat_record. now rewrite Hf.
  - intros Hlater.
    destruct (dict_shape_at false c h ts1 i ts2 Hnd Hin Hk Hlater) as [inner [H1 H2]].
    exists inner. split; [assumption |].
    rewrite H2. unfold leaf. now rewrite Hf.
Qed.

(* ================================================================== *)
(** ** TabulateFormatter: which calls return the input *)
(* ================================================================== *)

(** What lines 141-155 return, if they return, is the call of
    [tabulate] with the keyword dictionary they were given. *)
Lemma render_value rt kwargs hx (s : store) r :
  snd (render rt kwargs hx s) = Ok r -> exists data, r = Tabulate data kwargs.
Proof.
  unfold render, bind.
  destruct ((if truthy hx then exclude hx rt else ret rt) s) as [s1 [rt1 | e]];
    [| discriminate].
  destruct (dict_get kwargs "headers") as [[| | | | hs |] |];
    try (unfold bind; destruct (as_data rt1 s1) as [s2 [dat | e]]; simpl;
         [intros H; injection H as <-; eauto | discriminate]).
  - unfold bind. destruct (rows hs rt1 s1) as [s2 [dat | e]]; simpl;
      [intros H; injection H as <-; eauto | discriminate].
  - discriminate.
Qed.

Lemma renders_false t :
  renders t = false ->
  tab_eq_str t "brief" = false /\ tab_eq_bool t true = false
  /\ tab_eq_str t "extend" = false /\ forall l, t <> TDict l.
Proof.
  unfold renders. intros H.
  apply orb_false_iff in H as [H H4]. apply orb_false_iff in H as [H H3].
  apply orb_false_iff in H as [H1 H2].
  repeat split; auto. intros l ->. discriminate.
Qed.

(** X7. The call returns its [result] argument, and leaves every
    object as it is, exactly in these cases: [tabulate] could not be
    imported, [result] is neither an [AggregatedResult] nor a list, or
    [tabulate] is none of ["brief"], [True] (or [1]), ["extend"] and a
    dictionary - so for [False], [0], [None], any other string or
    number.  In every other case the call ends in [tabulate] or raises. *)
Theorem returns_input_exactly_when_not_rendering :
  forall (HAS_TABULATE : bool) (result : result_arg) (tabulate : tabulate_arg)
         (headers headers_exclude : value) (s : store),
    let passes := negb HAS_TABULATE
                  || match result with ROther => true | _ => false end
                  || negb (renders tabulate) in
    (passes = true ->
     TabulateFormatter HAS_TABULATE result tabulate headers headers_exclude s
     = (s, Ok Original))
    /\ (snd (TabulateFormatter HAS_TABULATE result tabulate headers headers_exclude s)
        = Ok Original -> passes = true).
Proof.
  intros has result tabulate headers hx s passes. subst passes.
  unfold TabulateFormatter. destruct has; cbn [negb orb]; [| split; reflexivity].
  destruct result as [nr | records |]; cbn [orb]; try (split; reflexivity).
  - generalize (ResultSerializer nr true false). intros m.
    destruct (renders tabulate) eqn:R; cbn [negb].
    + split; [discriminate |]. intros H. exfalso. revert H.
      unfold renders in R.
      destruct (tab_eq_str tabulate "brief");
        [intros H; apply render_value in H as [d Hd]; discriminate |].
      destruct (tab_eq_bool tabulate true);
        [intros H; apply render_value in H as [d Hd]; discriminate |].
      destruct (tab_eq_str tabulate "extend").
      { unfold bind. destruct (extend (TMapping m) s) as [s1 [t | e]];
          [intros H; apply render_value in H as [d Hd]; discriminate | discriminate]. }
      destruct tabulate as [| | | l |]; try discriminate.
      unfold bind. destruct (setdefault_headers l (normalize headers) s)
        as [s1 [kw | e]];
        [intros H; apply render_value in H as [d Hd]; discriminate | discriminate].
    + apply renders_false in R as [-> [-> [-> Hd]]].
      split; [| reflexivity]. intros _.
      destruct tabulate as [| | | l |];
        try (now destruct (tab_eq_bool _ false)).
      now destruct (Hd l).
  - destruct (renders tabulate) eqn:R; cbn [negb].
    + split; [discriminate |]. intros H. exfalso. revert H.
      unfold renders in R.
      destruct (tab_eq_str tabulate "brief");
        [intros H; apply render_value in H as [d Hd]; discriminate |].
      destruct (tab_eq_bool tabulate true);
        [intros H; apply render_value in H as [d Hd]; discriminate |].
      destruct (tab_eq_str tabulate "extend").
      { unfold bind.
        destruct (extend (TRecords (map Shared records)) s) as [s1 [t | e]];
          [intros H; apply render_value in H as [d Hd]; discriminate | discriminate]. }
      destruct tabulate as [| | | l |]; try discriminate.
      unfold bind. destruct (setdefault_headers l (normalize headers) s)
        as [s1 [kw | e]];
        [intros H; apply render_value in H as [d Hd]; discriminate | discriminate].
    + apply renders_false in R as [-> [-> [-> Hd]]].
      split; [| reflexivity]. intros _.
      destruct tabulate as [| | | l |];
        try (now destruct (tab_eq_bool _ false)).
      now destruct (Hd l).
Qed.

(* ================================================================== *)
(** ** TabulateFormatter: calls that do not raise *)
(* ================================================================== *)

(** [item.get(i, "")] for a header that can be hashed. *)
Lemma cells_hashable d hs :
  forallb hashable hs = true ->
  map_exc (cell d) hs
  = Ok (map (fun h => match h with
                      | VStr n => dict_get_default d n (VStr "")
                      | _ => VStr ""
                      end) hs).
Proof.
  induction hs as [| h hs IH]; simpl; [reflexivity |].
  intros H. apply andb_true_iff in H as [Hh Hhs]. rewrite IH by assumption.
  now destruct h.
Qed.

(** Lines 141-155 on a list of records: with headers that can be looked
    up and an exclusion that can be searched they reach [tabulate]. *)
Lemma render_ok rs kwargs h hx (s : store) :
  dict_get kwargs "headers" = Some h ->
  usable_headers h = true ->
  iterable hx = true \/ truthy hx = false ->
  exists data, render (TRecords rs) kwargs hx s = (s, Ok (Tabulate data kwargs)).
Proof.
  intros Hh Hu Hx. unfold render, bind.
  assert (Hrest : forall rs',
             exists data,
               (match dict_get kwargs "headers" with
                | None => raise KeyError
                | Some (VList hs) =>
                    let! r := rows hs (TRecords rs') in
                    ret (Tabulate (VList r) kwargs)
                | Some _ =>
                    let! data := as_data (TRecords rs') in
                    ret (Tabulate data kwargs)
                end) s = (s, Ok (Tabulate data kwargs))).
  { intros rs'. rewrite Hh.
    destruct h as [| | | | hs |];
      try (unfold bind; rewrite as_data_run; eexists; reflexivity).
    unfold bind. rewrite rows_run.
    erewrite map_exc_ok.
    - eexists. reflexivity.
    - intros r _. simpl in Hu. rewrite cells_hashable by assumption. reflexivity. }
  destruct (truthy hx) eqn:Ht.
  - destruct Hx as [Hi | Hf]; [| discriminate].
    rewrite exclude_run.
    rewrite (map_exc_ok _ (fun r => without hx (content s r)))
      by (intros; now apply exclude_record_iterable).
    apply Hrest.
  - apply Hrest.
Qed.

(** X8. Given a list of records, the function's own steps do not
    raise and the call gets as far as [tabulate_lib.tabulate] (what that
    library then does with its arguments is outside this function), or
    returns the input when [tabulate] asks for no table, provided that:
    the resolved headers (those of a dictionary given as [tabulate], if
    it has some) hold nothing that cannot be hashed; [headers_exclude]
    is a list, a string or a dictionary, or is empty; and under
    ["extend"] the records are distinct objects that each have a
    ["result"]. *)
Theorem list_of_records_reaches_tabulate :
  forall (s : store) (recs : list loc) (tabulate : tabulate_arg)
         (headers headers_exclude : value),
    usable_headers (normalize headers) = true ->
    (forall l v, tabulate = TDict l ->
                 dict_get (s !!! l) "headers" = Some v -> usable_headers v = true) ->
    iterable (normalize headers_exclude) = true
    \/ truthy (normalize headers_exclude) = false ->
    (tabulate = TStr "extend" ->
     NoDup recs /\ forall l, In l recs -> dict_mem (s !!! l) "result" = true) ->
    if renders tabulate
    then exists data kwargs,
        snd (TabulateFormatter true (RList recs) tabulate headers headers_exclude s)
        = Ok (Tabulate data kwargs)
    else snd (TabulateFormatter true (RList recs) tabulate headers headers_exclude s)
         = Ok Original.
Proof.
  intros s recs tabulate headers hx Hh Hd Hx He.
  unfold renders, TabulateFormatter. cbn [negb].
  destruct (tab_eq_str tabulate "brief"); cbn [orb].
  { destruct (render_ok (map Shared recs) brief _ (normalize hx) s eq_refl eq_refl Hx)
      as [data ->]. eauto. }
  destruct (tab_eq_bool tabulate true); cbn [orb].
  { destruct (render_ok (map Shared recs) [("headers", normalize headers)] _
                        (normalize hx) s eq_refl Hh Hx) as [data ->]. eauto. }
  destruct (tab_eq_str tabulate "extend") eqn:Ext; cbn [orb].
  { apply tab_eq_str_true in Ext. destruct (He Ext) as [Hnd Hres].
    unfold extend, bind.
    pose proof (extend_loop_run recs [] s Hnd Hres) as Hrun.
    destruct (foldM extend_record [] (map Shared recs) s) as [s1 [t | e]];
      [| discriminate].
    cbn [ret].
    destruct (render_ok t [("headers", normalize headers)] _
                        (normalize hx) s1 eq_refl Hh Hx) as [data ->]. eauto. }
  destruct tabulate as [| | | l |]; try (now destruct (tab_eq_bool _ false)).
  unfold bind. rewrite setdefault_run.
  destruct (dict_mem (s !!! l) "headers") eqn:Hm.
  - rewrite dict_mem_get in Hm.
    destruct (dict_get (s !!! l) "headers") as [v |] eqn:Hv; [| discriminate].
    destruct (render_ok (map Shared recs) (s !!! l) v (normalize hx) s Hv
                        (Hd l v eq_refl Hv) Hx) as [data ->]. eauto.
  - assert (Hv : dict_get (s !!! l ++ [("headers", normalize headers)]) "headers"
                 = Some (normalize headers)).
    { rewrite dict_get_app. rewrite dict_mem_get in Hm.
      destruct (dict_get (s !!! l) "headers"); [discriminate | reflexivity]. }
    destruct (render_ok (map Shared recs) _ _ (normalize hx)
                        (<[l := s !!! l ++ [("headers", normalize headers)]]> s)
                        Hv Hh Hx) as [data ->]. eauto.
Qed.

(* ================================================================== *)
(** ** TabulateFormatter: an [AggregatedResult] *)
(* ================================================================== *)

Lemma dict_set_nonempty (d : dict) k v : dict_set d k v <> [].
Proof. destruct d as [| [k' v'] d]; simpl; [| destruct (String.eqb k k')]; discriminate. Qed.

Lemma host_loop_nonempty (f : list Result.t -> value) c ret :
  c <> [] \/ ret <> [] ->
  fold_left (fun r item => dict_set r (fst item) (f (snd item))) c ret <> [].
Proof.
  revert ret. induction c as [| [h ts] c IH]; intros ret H; simpl.
  - destruct H as [H | H]; [contradiction | assumption].
  - apply IH. right. apply dict_set_nonempty.
Qed.

Lemma serializer_nonempty c ad td : c <> [] -> ResultSerializer c ad td <> [].
Proof.
  intros H. unfold ResultSerializer.
  destruct td;
    [apply (host_loop_nonempty (fun ts => VDict (fold_left (dict_task ad) ts [])))
    |apply (host_loop_nonempty (fun ts => VList (fold_left (list_task ad) ts [])))];
    now left.
Qed.

(** Lines 141-155 on the serializer's dictionary of at least one host. *)
Lemma render_mapping kv m kwargs hx (s : store) :
  render (TMapping (kv :: m)) kwargs hx s
  = (s, if truthy hx then Raise AttributeError
        else match dict_get kwargs "headers" with
             | None => Raise KeyError
             | Some (VList (_ :: _)) => Raise AttributeError
             | Some (VList []) =>
                 Ok (Tabulate (VList (map (fun _ => VList []) (kv :: m))) kwargs)
             | Some _ => Ok (Tabulate (VDict (kv :: m)) kwargs)
             end).
Proof.
  unfold render, bind. destruct (truthy hx); [reflexivity |]. cbn [ret].
  destruct (dict_get kwargs "headers") as [[| | | | hs |] |]; try reflexivity.
  now destruct hs.
Qed.

(** X9. Given an [AggregatedResult] with at least one host, what the
    call does is settled by [tabulate], the resolved headers and
    [headers_exclude].  It returns the input when [tabulate] asks for
    no table.  Under ["extend"] it raises [TypeError].  Under any other
    value that asks for a table it raises [AttributeError] when
    [headers_exclude] is not empty or the resolved headers are a list
    that is not empty - so always under ["brief"]; with an empty list of
    headers [tabulate] gets one empty row per host; with headers that
    are no list [tabulate] gets the serializer's dictionary of hosts. *)
Theorem aggregated_result_outcome :
  forall (nr : AggregatedResult) (s : store) (tabulate : tabulate_arg)
         (headers headers_exclude : value),
    nr <> [] ->
    snd (TabulateFormatter true (RAggregated nr) tabulate headers headers_exclude s)
    = match keywords s tabulate headers with
      | None => Ok Original
      | Some kwargs =>
          if tab_eq_str tabulate "extend" then Raise TypeError
          else if truthy (normalize headers_exclude) then Raise AttributeError
          else match dict_get kwargs "headers" with
               | Some (VList (_ :: _)) => Raise AttributeError
               | Some (VList []) =>
                   Ok (Tabulate
                         (VList (map (fun _ => VList [])
                                     (ResultSerializer nr true false)))
                         kwargs)
               | _ => Ok (Tabulate (VDict (ResultSerializer nr true false)) kwargs)
               end
      end.
Proof.
  intros nr s tabulate headers hx Hne.
  pose proof (serializer_nonempty nr true false Hne) as Hm.
  unfold TabulateFormatter, keywords. cbn [negb].
  destruct (ResultSerializer nr true false) as [| kv m]; [contradiction |].
  destruct (tab_eq_str tabulate "brief") eqn:B.
  { apply tab_eq_str_true in B. subst tabulate.
    rewrite render_mapping. cbn [snd tab_eq_str String.eqb Ascii.eqb Bool.eqb].
    now destruct (truthy (normalize hx)). }
  destruct (tab_eq_bool tabulate true) eqn:T.
  { assert (Hx : tab_eq_str tabulate "extend" = false) by now destruct tabulate.
    rewrite Hx, render_mapping. cbn [snd dict_get String.eqb Ascii.eqb Bool.eqb].
    destruct (truthy (normalize hx)); [reflexivity |].
    now destruct (normalize headers) as [| | | | [| h hs] |]. }
  destruct (tab_eq_str tabulate "extend") eqn:E; [reflexivity |].
  destruct tabulate as [| | | l |]; try (now destruct (tab_eq_bool _ false)).
  unfold bind. rewrite setdefault_run.
  destruct (dict_mem (s !!! l) "headers") eqn:Hd; rewrite render_mapping; cbn [snd].
  - destruct (truthy (normalize hx)); [reflexivity |].
    rewrite dict_mem_get in Hd.
    now destruct (dict_get (s !!! l) "headers") as [[| | | | [| h hs] |] |].
  - destruct (truthy (normalize hx)); [reflexivity |].
    assert (Hv : dict_get (s !!! l ++ [("headers", normalize headers)]) "headers"
                 = Some (normalize headers)).
    { rewrite dict_get_app. rewrite dict_mem_get in Hd.
      destruct (dict_get (s !!! l) "headers"); [discriminate | reflexivity]. }
    rewrite Hv. now destruct (normalize headers) as [| | | | [| h hs] |].
Qed.

(* ================================================================== *)
(** ** TabulateFormatter: more on ["extend"] *)
(* ================================================================== *)





(** X11. ["extend"] composes with the later steps: with distinct
    records that all have a ["result"], and headers that resolve to a
    list of names, the rows given to [tabulate] are those of the
    expanded records, one cell per header, with excluded and missing
    fields empty. *)
Theorem extend_then_rows :
  forall (s : store) (recs : list loc) (headers headers_exclude : value)
         (hs : list string),
    NoDup recs ->
    (forall l, In l recs -> dict_mem (s !!! l) "result" = true) ->
    normalize headers = VList (map VStr hs) ->
    iterable (normalize headers_exclude) = true
    \/ truthy (normalize headers_exclude) = false ->
    snd (TabulateFormatter true (RList recs) (TStr "extend")
                           headers headers_exclude s)
    = Ok (Tabulate
            (VList (map (fun d => VList (row_cells hs (normalize headers_exclude) d))
                        (flat_map (fun l => extend_rows (s !!! l)) recs)))
            [("headers", VList (map VStr hs))]).
Proof.
  intros s recs headers hx hs Hnd Hres Hh Hx.
  unfold TabulateFormatter.
  cbn [negb tab_eq_str tab_eq_bool String.eqb Ascii.eqb Bool.eqb].
  unfold extend, bind.
  pose proof (extend_loop_run recs [] s Hnd Hres) as Hrun.
  pose proof (extend_loop_content recs [] s) as Hcont. cbv zeta in Hcont.
  destruct (foldM extend_record [] (map Shared recs) s) as [s1 [t | e]];
    simpl in Hrun, Hcont; [| discriminate].
  injection Hrun as ->. cbn [ret].
  rewrite Hh, (render_names _ _ hs) by (reflexivity || assumption).
  cbn [snd]. now rewrite <- Hcont, map_map.
Qed.

(* ================================================================== *)
(** ** TabulateFormatter: headers given as a string *)
(* ================================================================== *)

Lemma split_length s : length (split comma s) = S (commas s).
Proof.
  induction s as [| c s IH]; simpl; [reflexivity |].
  destruct (Ascii.eqb c comma); simpl.
  - now rewrite IH.
  - destruct (split comma s) as [| w ws]; [discriminate |]. exact IH.
Qed.

Lemma split_no_sep sep s w : In w (split sep s) -> has_char sep w = false.
Proof.
  revert w. induction s as [| c s IH]; simpl; intros w.
  - intros [<- | []]. reflexivity.
  - destruct (Ascii.eqb c sep) eqn:E.
    + intros [<- | H]; [reflexivity | now apply IH].
    + destruct (split sep s) as [| w0 ws].
      * intros [<- | []]. simpl. rewrite Ascii.eqb_sym, E. reflexivity.
      * intros [<- | H].
        -- simpl. rewrite Ascii.eqb_sym, E. apply IH. now left.
        -- apply IH. now right.
Qed.

Lemma has_char_lstrip c s : has_char c s = false -> has_char c (lstrip s) = false.
Proof.
  induction s as [| c' s IH]; simpl; [reflexivity |].
  destruct (Ascii.eqb c c') eqn:E; [discriminate |].
  intros H. destruct (is_space c'); [now apply IH |]. simpl. now rewrite E.
Qed.

Lemma has_char_rstrip c s : has_char c s = false -> has_char c (rstrip s) = false.
Proof.
  induction s as [| c' s IH]; simpl; [reflexivity |].
  destruct (Ascii.eqb c c') eqn:E; [discriminate |].
  intros H. specialize (IH H).
  destruct (rstrip s) as [| c1 r].
  - destruct (is_space c'); [reflexivity |]. simpl. now rewrite E.
  - simpl. rewrite E. exact IH.
Qed.

Lemma rstrip_rstrip s : rstrip (rstrip s) = rstrip s.
Proof.
  induction s as [| c s IH]; [reflexivity |].
  cbn [rstrip]. destruct (rstrip s) as [| c1 r] eqn:E.
  - destruct (is_space c) eqn:Ec; [reflexivity |].
    cbn [rstrip]. now rewrite Ec.
  - cbn [rstrip]. cbn [rstrip] in IH.
    destruct (rstrip r) as [| c2 r2].
    + destruct (is_space c1); [discriminate |]. injection IH as <-. reflexivity.
    + now rewrite IH.
Qed.

Lemma lstrip_head s :
  lstrip s = EmptyString
  \/ exists c t, lstrip s = String c t /\ is_space c = false.
Proof.
  induction s as [| c s IH]; simpl; [now left |].
  destruct (is_space c) eqn:E; [assumption |]. right. eauto.
Qed.

Lemma rstrip_head c t :
  is_space c = false -> exists u, rstrip (String c t) = String c u.
Proof.
  intros H. cbn [rstrip]. destruct (rstrip t); [rewrite H |]; eauto.
Qed.

Lemma strip_fixed s :
  lstrip (strip s) = strip s /\ rstrip (strip s) = strip s.
Proof.
  unfold strip. split; [| apply rstrip_rstrip].
  destruct (lstrip_head s) as [-> | [c [t [-> Hc]]]]; [reflexivity |].
  destruct (rstrip_head c t Hc) as [u ->]. simpl. now rewrite Hc.
Qed.

(** X13. A header string with a comma becomes a list with one name
    more than it has commas; no name holds a comma or begins or ends
    with white space (a name may be empty).  A string without a comma,
    and anything that is no string, is kept as it is. *)
Theorem normalize_names :
  forall s : string,
    (has_char comma s = true ->
     exists names,
       normalize (VStr s) = VList (map VStr names)
       /\ length names = S (commas s)
       /\ forall n, In n names ->
                    has_char comma n = false
                    /\ lstrip n = n /\ rstrip n = n)
    /\ (has_char comma s = false -> normalize (VStr s) = VStr s)
    /\ (forall v, (forall t, v <> VStr t) -> normalize v = v).
Proof.
  intros s. split; [| split].
  - intros H. exists (map strip (split comma s)). split; [| split].
    + unfold normalize, split_names. now rewrite H, map_map.
    + rewrite length_map. apply split_length.
    + intros n Hn. apply in_map_iff in Hn as [w [<- Hw]].
      destruct (strip_fixed w) as [H1 H2]. repeat split; auto.
      unfold strip. apply has_char_rstrip, has_char_lstrip.
      now apply (split_no_sep comma s).
  - intros H. unfold normalize. now rewrite H.
  - intros v Hv. destruct v; try reflexivity. now destruct (Hv s0).
Qed.

(* ================================================================== *)
(** ** TabulateFormatter: a dictionary as [tabulate] *)
(* ================================================================== *)

(** X12. When a call with a dictionary as [tabulate] reaches
    [tabulate], the keywords are that dictionary: every option in it is
    passed on as it is, its own ["headers"] win over the [headers]
    argument, and only when it has none are the resolved headers
    appended.  After the call the caller's dictionary reads as the
    keywords that were passed. *)
Theorem dictionary_is_the_keywords :
  forall (HAS_TABULATE : bool) (result : result_arg) (l : loc)
         (headers headers_exclude : value) (s : store) (data : value) (kwargs : dict),
    snd (TabulateFormatter HAS_TABULATE result (TDict l) headers headers_exclude s)
    = Ok (Tabulate data kwargs) ->
    kwargs = (if dict_mem (s !!! l) "headers" then s !!! l
              else s !!! l ++ [("headers", normalize headers)])
    /\ (forall k v, dict_get (s !!! l) k = Some v -> dict_get kwargs k = Some v)
    /\ fst (TabulateFormatter HAS_TABULATE result (TDict l) headers headers_exclude s)
       !!! l = kwargs.
Proof.
  intros has result l headers hx s data kwargs.
  unfold TabulateFormatter. destruct has; cbn [negb]; [| discriminate].
  assert (Hgo : forall rt,
             snd ((let! kw := setdefault_headers l (normalize headers) in
                   render rt kw (normalize hx)) s) = Ok (Tabulate data kwargs) ->
             kwargs = (if dict_mem (s !!! l) "headers" then s !!! l
                       else s !!! l ++ [("headers", normalize headers)])
             /\ (forall k v, dict_get (s !!! l) k = Some v -> dict_get kwargs k = Some v)
             /\ fst ((let! kw := setdefault_headers l (normalize headers) in
                      render rt kw (normalize hx)) s) !!! l = kwargs).
  { intros rt. unfold bind. rewrite setdefault_run.
    destruct (dict_mem (s !!! l) "headers") eqn:Hm; cbn iota; intros H;
      pose proof H as H'; apply render_value in H' as [d' E];
      rewrite render_store; injection E as _ Hk; subst kwargs.
    - split; [reflexivity |]. split; auto.
    - split; [reflexivity |]. split; [| apply lookup_total_insert_eq].
      intros k v Hk. now rewrite dict_get_app, Hk. }
  destruct result as [nr | records |]; [| | discriminate];
    cbn [tab_eq_str tab_eq_bool]; apply Hgo.
Qed.

(* ================================================================== *)
(** ** TabulateFormatter: [headers_exclude] at its edges *)
(* ================================================================== *)

Lemma render_falsy rt kwargs hx hx' (s : store) :
  truthy hx = false -> truthy hx' = false ->
  render rt kwargs hx s = render rt kwargs hx' s.
Proof. intros H H'. unfold render. now rewrite H, H'. Qed.

(** X14. An empty [headers_exclude] excludes nothing, whatever it is:
    with an empty string, [None], [False] or [0] the call does what it
    does with the empty list. *)
Theorem empty_exclusion_is_no_exclusion :
  forall (HAS_TABULATE : bool) (result : result_arg) (tabulate : tabulate_arg)
         (headers headers_exclude : value) (s : store),
    truthy (normalize headers_exclude) = false ->
    TabulateFormatter HAS_TABULATE result tabulate headers headers_exclude s
    = TabulateFormatter HAS_TABULATE result tabulate headers (VList []) s.
Proof.
  intros has result tabulate headers hx s Hf.
  unfold TabulateFormatter. destruct has; cbn [negb]; [| reflexivity].
  assert (Hr : forall rt kw s0,
             render rt kw (normalize hx) s0 = render rt kw (normalize (VList [])) s0)
    by (intros; now apply render_falsy).
  assert (Hgo : forall rt,
             (if tab_eq_str tabulate "brief" then render rt brief (normalize hx)
              else if tab_eq_bool tabulate true
                   then render rt [("headers", normalize headers)] (normalize hx)
                   else if tab_eq_str tabulate "extend"
                        then let! table_ := extend rt in
                             render table_ [("headers", normalize headers)]
                                    (normalize hx)
                        else match tabulate with
                             | TDict l =>
                                 let! kwargs := setdefault_headers l (normalize headers) in
                                 render rt kwargs (normalize hx)
                             | _ => if tab_eq_bool tabulate false
                                    then ret Original else ret Original
                             end) s
             = (if tab_eq_str tabulate "brief"
                then render rt brief (normalize (VList []))
                else if tab_eq_bool tabulate true
                     then render rt [("headers", normalize headers)]
                                 (normalize (VList []))
                     else if tab_eq_str tabulate "extend"
                          then let! table_ := extend rt in
                               render table_ [("headers", normalize headers)]
                                      (normalize (VList []))
                          else match tabulate with
                               | TDict l =>
                                   let! kwargs :=
                                     setdefault_headers l (normalize headers) in
                                   render rt kwargs (normalize (VList []))
                               | _ => if tab_eq_bool tabulate false
                                      then ret Original else ret Original
                               end) s).
  { intros rt.
    destruct (tab_eq_str tabulate "brief"); [apply Hr |].
    destruct (tab_eq_bool tabulate true); [apply Hr |].
    destruct (tab_eq_str tabulate "extend").
    { unfold bind. destruct (extend rt s) as [s1 [t | e]]; [apply Hr | reflexivity]. }
    destruct tabulate as [| | | l |]; try reflexivity.
    unfold bind. destruct (setdefault_headers l (normalize headers) s)
      as [s1 [kw | e]]; [apply Hr | reflexivity]. }
  destruct result as [nr | records |]; [apply Hgo | apply Hgo | reflexivity].
Qed.

Lemma In_Shared' x recs :
  In x (map Shared recs) -> exists l, x = Shared l /\ In l recs.
Proof. intros H. apply in_map_iff in H as [l [<- Hl]]. eauto. Qed.

Lemma map_exc_raise {A B} (f : A -> exc B) l e :
  (exists x, In x l /\ f x = Raise e) ->
  (forall x e', In x l -> f x = Raise e' -> e' = e) ->
  map_exc f l = Raise e.
Proof.
  induction l as [| x l IH]; intros [y [Hy Hfy]] Hall; [destruct Hy |].
  simpl. destruct (f x) as [b | e'] eqn:E; simpl.
  - destruct Hy as [-> | Hy]; [congruence |].
    rewrite IH; [reflexivity | eauto |].
    intros z e' Hz. apply Hall. now right.
  - f_equal. apply (Hall x); [now left | assumption].
Qed.

Lemma exclude_record_not_iterable hx d :
  iterable hx = false ->
  exclude_record hx d = match d with [] => Ok [] | _ :: _ => Raise TypeError end.
Proof.
  intros H. destruct d as [| [k v] d]; [reflexivity |].
  cbn [exclude_record]. now destruct hx.
Qed.

(** The call with [tabulate=True], or [1], on a list of records. *)
Lemma enabled_call t recs headers hx (s : store) :
  tab_eq_bool t true = true ->
  TabulateFormatter true (RList recs) t headers hx s
  = render (TRecords (map Shared recs)) [("headers", normalize headers)]
           (normalize hx) s.
Proof.
  intros H. unfold TabulateFormatter. cbn [negb]. rewrite H.
  now destruct t.
Qed.

Lemma render_not_iterable rs kwargs hx (s : store) :
  iterable hx = false -> truthy hx = true ->
  (exists r, In r rs /\ content s r <> []) ->
  render (TRecords rs) kwargs hx s = (s, Raise TypeError).
Proof.
  intros Hi Ht [r [Hr Hne]]. unfold render, bind. rewrite Ht, exclude_run.
  rewrite (map_exc_raise _ _ TypeError); [reflexivity | |].
  - exists r. split; [assumption |].
    rewrite exclude_record_not_iterable by assumption.
    now destruct (content s r).
  - intros x e' _. rewrite exclude_record_not_iterable by assumption.
    destruct (content s x); congruence.
Qed.

(** X15. With [tabulate=True] (or [1]) or ["brief"], a
    [headers_exclude] that is not empty and cannot be searched ([True],
    a number other than [0]) makes the call on a list of records raise
    [TypeError] as soon as one record has a field; every object is left
    as it was.  With [tabulate=True] (or [1]) and headers that are no
    list, when every record is empty no membership is asked and the
    empty records reach [tabulate]. *)
Theorem exclusion_that_cannot_be_searched :
  forall (s : store) (recs : list loc) (tabulate : tabulate_arg)
         (headers headers_exclude : value),
    iterable (normalize headers_exclude) = false ->
    truthy (normalize headers_exclude) = true ->
    ((tab_eq_str tabulate "brief" = true \/ tab_eq_bool tabulate true = true) ->
     (exists l, In l recs /\ s !!! l <> []) ->
     TabulateFormatter true (RList recs) tabulate headers headers_exclude s
     = (s, Raise TypeError))
    /\ (tab_eq_bool tabulate true = true ->
        (forall l, In l recs -> s !!! l = []) ->
        is_list (normalize headers) = false ->
        TabulateFormatter true (RList recs) tabulate headers headers_exclude s
        = (s, Ok (Tabulate (VList (map (fun _ => VDict []) recs))
                           [("headers", normalize headers)]))).
Proof.
  intros s recs tabulate headers hx Hi Ht. split.
  - intros Hmode [l [Hl Hne]].
    assert (Hex : exists r, In r (map Shared recs) /\ content s r <> []).
    { exists (Shared l). split; [now apply in_map | assumption]. }
    destruct Hmode as [Hb | Hb].
    + unfold TabulateFormatter. cbn [negb]. rewrite Hb.
      now apply render_not_iterable.
    + rewrite enabled_call by assumption. now apply render_not_iterable.
  - intros Hb Hall Hl. rewrite enabled_call by assumption.
    unfold render, bind. rewrite Ht, exclude_run.
    rewrite (map_exc_ok _ (fun _ => [])).
    + cbn [dict_get String.eqb Ascii.eqb Bool.eqb].
      assert (Hd : (let (s', e0) := as_data (TRecords (map Fresh (map (fun _ => [])
                                                       (map Shared recs)))) s in
                    match e0 with
                    | Ok a => ret (Tabulate a [("headers", normalize headers)]) s'
                    | Raise e => (s', Raise e)
                    end)
                   = (s, Ok (Tabulate (VList (map (fun _ => VDict []) recs))
                                      [("headers", normalize headers)]))).
      { rewrite as_data_run. cbn [ret]. now rewrite !map_map. }
      now destruct (normalize headers).
    + intros x Hx. apply In_Shared' in Hx as [l [-> Hl']].
      rewrite exclude_record_not_iterable by assumption. simpl.
      now rewrite (Hall l Hl').
Qed.

(* ================================================================== *)
(** ** TabulateFormatter: headers that cannot be hashed *)
(* ================================================================== *)

Lemma cells_unhashable d hs :
  forallb hashable hs = false -> map_exc (cell d) hs = Raise TypeError.
Proof.
  induction hs as [| h hs IH]; simpl; [discriminate |].
  intros H. apply andb_false_iff in H as [H | H].
  - now destruct h.
  - rewrite IH by assumption. now destruct h.
Qed.

Lemma rows_unhashable hs rs (s : store) :
  forallb hashable hs = false -> rs <> [] ->
  rows hs (TRecords rs) s = (s, Raise TypeError).
Proof.
  intros Hh Hne. rewrite rows_run.
  rewrite (map_exc_raise _ _ TypeError); [reflexivity | |].
  - destruct rs as [| r rs]; [contradiction |].
    exists r. split; [now left |]. now rewrite cells_unhashable.
  - intros x e' _. rewrite cells_unhashable by assumption. simpl. congruence.
Qed.

(** X16. With [tabulate=True] (or [1]), a list or a dictionary among
    the headers cannot be looked up in a record: the call on a list of
    at least one record raises [TypeError] (the exclusion being one that
    goes through), and every object is left as it was.  With no record
    there is nothing to look up and the call gets to [tabulate] with no
    rows. *)
Theorem unhashable_header_raises :
  forall (s : store) (recs : list loc) (tabulate : tabulate_arg)
         (headers headers_exclude : value) (hs : list value),
    tab_eq_bool tabulate true = true ->
    normalize headers = VList hs ->
    forallb hashable hs = false ->
    iterable (normalize headers_exclude) = true
    \/ truthy (normalize headers_exclude) = false ->
    (recs <> [] ->
     TabulateFormatter true (RList recs) tabulate headers headers_exclude s
     = (s, Raise TypeError))
    /\ (recs = [] ->
        TabulateFormatter true (RList recs) tabulate headers headers_exclude s
        = (s, Ok (Tabulate (VList []) [("headers", VList hs)]))).
Proof.
  intros s recs tabulate headers hx hs Hb Hh Hu Hx.
  rewrite enabled_call by assumption.
  rewrite Hh. unfold render, bind.
  cbn [dict_get String.eqb Ascii.eqb Bool.eqb].
  split.
  - intros Hne.
    destruct (truthy (normalize hx)) eqn:Ht.
    + destruct Hx as [Hi | Hf]; [| discriminate].
      rewrite exclude_run.
      rewrite (map_exc_ok _ (fun r => without (normalize hx) (content s r)))
        by (intros; now apply exclude_record_iterable).
      unfold bind. rewrite rows_unhashable; [reflexivity | assumption |].
      destruct recs; [contradiction | discriminate].
    + cbn [ret]. unfold bind. rewrite rows_unhashable; [reflexivity | assumption |].
      destruct recs; [contradiction | discriminate].
  - intros ->. simpl. now destruct (truthy (normalize hx)).
Qed.

(* ================================================================== *)
(** ** TabulateFormatter: what an exclusion removes *)
(* ================================================================== *)

Lemma prefix_refl s : String.prefix s s = true.
Proof.
  induction s as [| c s IH]; simpl; [reflexivity |].
  now destruct (ascii_dec c c).
Qed.

Lemma substring_of_refl s : substring_of s s = true.
Proof. destruct s; cbn [substring_of]; now rewrite prefix_refl. Qed.

Lemma substring_of_empty s : substring_of "" s = true.
Proof. now destruct s. Qed.

(** X17. With [tabulate=True] (or [1]), headers left to [tabulate]
    and [headers_exclude] a non-empty list of names (or a string with a
    comma that gives one), the records reach [tabulate] in order, each
    without the fields so named and with every other field as it was,
    in its place; excluding again what was excluded changes nothing;
    every object of the caller is left as it was. *)
Theorem exclusion_by_names :
  forall (s : store) (recs : list loc) (tabulate : tabulate_arg)
         (headers headers_exclude : value)
         (sentinel : string) (names : list string),
    tab_eq_bool tabulate true = true ->
    normalize headers = VStr sentinel ->
    normalize headers_exclude = VList (map VStr names) ->
    names <> [] ->
    let hx := normalize headers_exclude in
    TabulateFormatter true (RList recs) tabulate headers headers_exclude s
    = (s, Ok (Tabulate (VList (map (fun l => VDict (without hx (s !!! l))) recs))
                       [("headers", VStr sentinel)]))
    /\ (forall d,
           without hx d = List.filter (fun kv => negb (str_in (fst kv) names)) d)
    /\ (forall d k v, In (k, v) (without hx d) <-> In (k, v) d /\ ~ In k names)
    /\ (forall d, without hx (without hx d) = without hx d).
Proof.
  intros s recs tabulate headers hx sentinel names Hb Hh Hx Hne hx'. subst hx'.
  assert (Hex : forall k, excludes (normalize hx) k = str_in k names).
  { intros k. rewrite Hx.
    destruct (str_in k names) eqn:E.
    - apply excludes_names. now apply str_in_In.
    - destruct (excludes (VList (map VStr names)) k) eqn:E'; [| reflexivity].
      apply excludes_names, str_in_In in E'. congruence. }
  split; [| split; [| split]].
  - rewrite enabled_call by assumption.
    rewrite Hh, (render_excluded_records _ _ sentinel); try reflexivity.
    + now rewrite map_map.
    + now rewrite Hx.
    + rewrite Hx. destruct names; [contradiction | reflexivity].
  - intros d. unfold without. apply List.filter_ext. intros kv. now rewrite Hex.
  - intros d k v. rewrite without_In, Hex. split; intros [H1 H2]; split; auto.
    + intros Hin. apply str_in_In in Hin. congruence.
    + destruct (str_in k names) eqn:E; [| reflexivity].
      apply str_in_In in E. contradiction.
  - intros d. apply without_idempotent.
Qed.

(** X18. A non-empty [headers_exclude] string without a comma is not
    split: a field is removed exactly when its name occurs in the
    string.  So the field the string names is removed, and with it any
    field whose name is a part of that name, and a field with the empty
    name. *)
Theorem exclusion_by_one_string :
  forall (s : store) (recs : list loc) (headers : value) (sentinel n : string),
    normalize headers = VStr sentinel ->
    has_char comma n = false ->
    n <> "" ->
    TabulateFormatter true (RList recs) (TBool true) headers (VStr n) s
    = (s, Ok (Tabulate
                (VList (map (fun l => VDict (List.filter
                                               (fun kv => negb (substring_of (fst kv) n))
                                               (s !!! l))) recs))
                [("headers", VStr sentinel)]))
    /\ substring_of n n = true
    /\ substring_of "" n = true.
Proof.
  intros s recs headers sentinel n Hh Hc Hn.
  assert (Hnorm : normalize (VStr n) = VStr n) by (unfold normalize; now rewrite Hc).
  assert (Ht : truthy (VStr n) = true).
  { simpl. destruct (String.eqb_spec n ""); [contradiction | reflexivity]. }
  split; [| split; [apply substring_of_refl | apply substring_of_empty]].
  - unfold TabulateFormatter. cbn [negb tab_eq_str tab_eq_bool Bool.eqb].
    rewrite Hh, Hnorm, (render_excluded_records _ _ sentinel)
      by (reflexivity || exact Ht).
    rewrite map_map. do 4 f_equal. apply map_ext. intros l. f_equal.
    unfold without. apply List.filter_ext. intros kv.
    unfold excludes. now rewrite Ht.
Qed.

(* ================================================================== *)
(** ** The further theorems at sample inputs *)
(* ================================================================== *)

(** A host whose only task is skipped keeps its place. *)
Lemma serializer_keeps_hosts_witness :
  keys (ResultSerializer More.run true false) = ["R2"; "R1"].
Proof.
  assert (Hnd : NoDup (map fst More.run)) by (simpl; distinct).
  exact (proj1 (serializer_keeps_hosts More.run true false Hnd)).
Defined.

(** Four tasks, one of them skipped. *)
Lemma serializer_list_counts_and_order_witness :
  exists recs,
    dict_get (ResultSerializer Sample.run true false) "R1" = Some (VList recs)
    /\ length recs + 1 = 4
    /\ flat_map record_name recs = ["show clock"; "show version"; "show run"].
Proof.
  assert (Hnd : NoDup (map fst Sample.run)) by (simpl; distinct).
  assert (Hin : In ("R1", [Sample.gather_facts; Sample.show_clock;
                           Sample.lost; Sample.broken]) Sample.run)
    by (left; reflexivity).
  exact (serializer_list_counts_and_order Sample.run true "R1" _ Hnd Hin).
Defined.

(** Two tasks of one name: the second is the entry. *)
Lemma serializer_dict_last_wins_witness :
  exists inner,
    dict_get (ResultSerializer Sample.repeated false true) "R1" = Some (VDict inner)
    /\ NoDup (keys inner)
    /\ forall n,
         dict_get inner n
         = match last_kept n [Sample.show_clock; Sample.show_clock_again] with
           | Some i => Some (leaf false i)
           | None => None
           end.
Proof.
  assert (Hnd : NoDup (map fst Sample.repeated)) by (simpl; distinct).
  assert (Hin : In ("R1", [Sample.show_clock; Sample.show_clock_again])
                   Sample.repeated) by (left; reflexivity).
  exact (serializer_dict_last_wins Sample.repeated false "R1" _ Hnd Hin).
Defined.

(** The plain record of a task. *)
Lemma serializer_plain_record_witness :
  exists before after,
    dict_get (ResultSerializer Sample.run false false) "R1"
    = Some (VList (before
                   ++ VDict [("name", VStr "show clock"); ("result", VStr "12:00")]
                   :: after))
    /\ length before = 0.
Proof.
  assert (Hnd : NoDup (map fst Sample.run)) by (simpl; distinct).
  assert (Hin : In ("R1", [Sample.gather_facts]
                          ++ Sample.show_clock :: [Sample.lost; Sample.broken])
                   Sample.run) by (left; reflexivity).
  assert (Hs : ~ In (Result.name Sample.show_clock) skip_tasks) by not_a_skip_task.
  exact (proj1 (serializer_plain_record
                  Sample.run "R1" [Sample.gather_facts] Sample.show_clock
                  [Sample.lost; Sample.broken] Hnd Hin eq_refl Hs eq_refl)).
Defined.

(** A keyword dictionary with headers of its own, and a record without
    a result: outside ["extend"] the call gets to [tabulate]. *)
Lemma list_of_records_reaches_tabulate_witness :
  exists data kwargs,
    snd (TabulateFormatter true (RList [0; 2]) (TDict 4)
                           (VStr "name, result") (VStr "diff") More.objects)
    = Ok (Tabulate data kwargs).
Proof.
  assert (Hd : forall l v, TDict 4 = TDict l ->
                           dict_get (More.objects !!! l) "headers" = Some v ->
                           usable_headers v = true).
  { intros l v E. injection E as <-. intros Hv. vm_compute in Hv.
    injection Hv as <-. reflexivity. }
  assert (He : TDict 4 = TStr "extend" ->
               NoDup [0; 2]
               /\ forall l, In l [0; 2] -> dict_mem (More.objects !!! l) "result" = true)
    by discriminate.
  exact (list_of_records_reaches_tabulate
           More.objects [0; 2] (TDict 4) (VStr "name, result") (VStr "diff")
           eq_refl Hd (or_introl eq_refl) He).
Defined.

(** The sample run with an empty list of headers: a row without cells
    for its one host. *)
Lemma aggregated_result_outcome_witness :
  snd (TabulateFormatter true (RAggregated Sample.run) (TInt 1)
                         (VList []) default_headers_exclude ∅)
  = Ok (Tabulate (VList [VList []]) [("headers", VList [])]).
Proof.
  assert (Hne : Sample.run <> []) by discriminate.
  exact (aggregated_result_outcome
           Sample.run ∅ (TInt 1) (VList []) default_headers_exclude Hne).
Defined.


(** The expanded records as rows under two headers. *)
Lemma extend_then_rows_witness :
  snd (TabulateFormatter true (RList [0; 1]) (TStr "extend")
                         (VStr "name,result,mtu") (VStr "name,diff") Sample.objects)
  = Ok (Tabulate
          (VList [VList [VStr ""; VStr ""; VInt 1500];
                  VList [VStr ""; VStr "eth1 is down"; VStr ""];
                  VList [VStr ""; VStr "ok"; VStr ""]])
          [("headers", VList [VStr "name"; VStr "result"; VStr "mtu"])]).
Proof.
  assert (Hnd : NoDup [0; 1]) by distinct.
  assert (Hres : forall l, In l [0; 1] ->
                           dict_mem (Sample.objects !!! l) "result" = true).
  { intros l [<- | [<- | []]]; reflexivity. }
  exact (extend_then_rows Sample.objects [0; 1]
           (VStr "name,result,mtu") (VStr "name,diff") ["name"; "result"; "mtu"]
           Hnd Hres eq_refl (or_introl eq_refl)).
Defined.

(** A dictionary without headers gets them; the rest is passed on. *)
Lemma dictionary_is_the_keywords_witness :
  [("tablefmt", VStr "grid"); ("headers", VStr "keys")]
  = Sample.objects !!! 3 ++ [("headers", VStr "keys")]
  /\ fst (TabulateFormatter true (RList [1]) (TDict 3)
                            default_headers default_headers_exclude Sample.objects)
     !!! 3
     = [("tablefmt", VStr "grid"); ("headers", VStr "keys")].
Proof.
  pose proof (dictionary_is_the_keywords
                true (RList [1]) 3 default_headers default_headers_exclude
                Sample.objects
                (VList [VDict [("host", VStr "R1"); ("hostname", VStr "r1.lab");
                               ("result", VStr "ok")]])
                [("tablefmt", VStr "grid"); ("headers", VStr "keys")]
                eq_refl) as H.
  exact (conj (proj1 H) (proj2 (proj2 H))).
Defined.

(** The empty string excludes nothing. *)
Lemma empty_exclusion_is_no_exclusion_witness :
  TabulateFormatter true (RList [1]) (TStr "brief") default_headers (VStr "")
                    Sample.objects
  = TabulateFormatter true (RList [1]) (TStr "brief") default_headers (VList [])
                      Sample.objects.
Proof.
  exact (empty_exclusion_is_no_exclusion
           true (RList [1]) (TStr "brief") default_headers (VStr "")
           Sample.objects eq_refl).
Defined.

(** [headers_exclude=True]. *)
Lemma exclusion_that_cannot_be_searched_witness :
  TabulateFormatter true (RList [1]) (TBool true) default_headers (VBool true)
                    Sample.objects
  = (Sample.objects, Raise TypeError).
Proof.
  apply (proj1 (exclusion_that_cannot_be_searched
                  Sample.objects [1] (TBool true) default_headers (VBool true)
                  eq_refl eq_refl)).
  - right. reflexivity.
  - exists 1. split; [now left | discriminate].
Defined.

(** A list among the headers. *)
Lemma unhashable_header_raises_witness :
  TabulateFormatter true (RList [1]) (TBool true)
                    (VList [VStr "host"; VList [VStr "result"]])
                    default_headers_exclude Sample.objects
  = (Sample.objects, Raise TypeError).
Proof.
  apply (proj1 (unhashable_header_raises
                  Sample.objects [1] (TBool true)
                  (VList [VStr "host"; VList [VStr "result"]])
                  default_headers_exclude [VStr "host"; VList [VStr "result"]]
                  eq_refl eq_refl eq_refl (or_intror eq_refl))).
  discriminate.
Defined.

(** Two names in a string with a comma. *)
Lemma exclusion_by_names_witness :
  TabulateFormatter true (RList [1]) (TBool true) default_headers
                    (VStr "hostname, diff") Sample.objects
  = (Sample.objects,
     Ok (Tabulate (VList [VDict [("host", VStr "R1"); ("result", VStr "ok")]])
                  [("headers", VStr "keys")])).
Proof.
  assert (Hne : ["hostname"; "diff"] <> []) by discriminate.
  pose proof (exclusion_by_names
                Sample.objects [1] (TBool true) default_headers
                (VStr "hostname, diff")
                "keys" ["hostname"; "diff"] eq_refl eq_refl eq_refl Hne) as H.
  cbv zeta in H. exact (proj1 H).
Defined.

(** One name in a string: the field ["host"] goes with ["hostname"]. *)
Lemma exclusion_by_one_string_witness :
  TabulateFormatter true (RList [1]) (TBool true) default_headers
                    (VStr "hostname") Sample.objects
  = (Sample.objects,
     Ok (Tabulate (VList [VDict [("result", VStr "ok")]])
                  [("headers", VStr "keys")])).
Proof.
  assert (Hn : "hostname" <> "") by discriminate.
  exact (proj1 (exclusion_by_one_string
                  Sample.objects [1] default_headers "keys" "hostname"
                  eq_refl eq_refl Hn)).
Defined.
